(** * The Adform asynchronous-report client: submit, poll, paginated fetch

    A shallow embedding of [src/adform/api_service.py] (class [AdformClient])
    and of the fetch stage of [src/component.py] ([Component.run]).

    Python computations are functions on an explicit [World] (the client
    object, a clock, request counters, a log of the requests and sleeps and
    the output file) that end in a value, a raised exception or, for the
    unbounded [while] loops, in running out of the fuel given to them. *)

From Stdlib Require Import ZArith List String Ascii Bool Lia DecimalString.
Import ListNotations.
Local Open Scope string_scope.
Local Open Scope Z_scope.

Local Set Warnings "-register-all".

(** ** Python values *)

(** What [json()] of a response and the configuration hold. *)
Inductive pyval : Type :=
| PNone
| PBool (b : bool)
| PInt (z : Z)
| PStr (s : string)
| PList (l : list pyval)
| PDict (d : list (string * pyval)).

(** A [dict] with string keys, in insertion order, keys pairwise distinct. *)
Definition dict : Type := list (string * pyval).

(** Python exceptions that the code raises or lets through. *)
Inductive exn : Type :=
| AdformClientError (msg : string)
| AdformServerError (msg : string)
| RetryError (msg : string)
| HTTPError (msg : string)
| KeyError (key : string)
| IndexError
| TypeError
| AttributeError (attr : string)
| CsvError
| UserException (cause : exn).

Module Py.

(** [d.get(k)] without the default: [None] when the key is absent. *)
Fixpoint lookup (k : string) (d : dict) : option pyval :=
  match d with
  | [] => None
  | (k', v) :: d' => if String.eqb k k' then Some v else lookup k d'
  end.

(** [k in d] *)
Definition mem (k : string) (d : dict) : bool :=
  match lookup k d with Some _ => true | None => false end.

(** [d.get(k)] *)
Definition get (d : dict) (k : string) : pyval :=
  match lookup k d with Some v => v | None => PNone end.

(** [d[k] = v]: overwrites in place, appends a new key at the end. *)
Fixpoint set (k : string) (v : pyval) (d : dict) : dict :=
  match d with
  | [] => [(k, v)]
  | (k', v') :: d' =>
      if String.eqb k k' then (k', v) :: d' else (k', v') :: set k v d'
  end.

(** [v[k]] for a string key [k]. *)
Definition subscript (v : pyval) (k : string) : exn + pyval :=
  match v with
  | PDict d => match lookup k d with
               | Some x => inr x
               | None => inl (KeyError k)
               end
  | _ => inl TypeError
  end.

(** [len(v)] *)
Definition len (v : pyval) : exn + Z :=
  match v with
  | PList l => inr (Z.of_nat (List.length l))
  | PDict d => inr (Z.of_nat (List.length d))
  | PStr s => inr (Z.of_nat (String.length s))
  | _ => inl TypeError
  end.

(** Truth value, as [if v:] tests it. *)
Definition truthy (v : pyval) : bool :=
  match v with
  | PNone => false
  | PBool b => b
  | PInt z => negb (z =? 0)
  | PStr s => negb (String.eqb s "")
  | PList l => match l with [] => false | _ => true end
  | PDict d => match d with [] => false | _ => true end
  end.

(** [v == s] for a string literal [s]. *)
Definition eq_str (v : pyval) (s : string) : bool :=
  match v with PStr t => String.eqb t s | _ => false end.

(** [v in [s1, s2, ...]] for string literals. *)
Definition in_strs (v : pyval) (l : list string) : bool :=
  existsb (eq_str v) l.

(** [str(z)] of an integer. *)
Definition str_int (z : Z) : string := NilZero.string_of_int (Z.to_int z).

Section Repr.
(** [repr] of a list or a dict is the interpreter's; it is a parameter. *)
Variable repr : pyval -> string.

(** [str(v)] *)
Definition str (v : pyval) : string :=
  match v with
  | PNone => "None"
  | PBool true => "True"
  | PBool false => "False"
  | PInt z => str_int z
  | PStr s => s
  | _ => repr v
  end.
End Repr.

(** [s.rsplit('/', 1)]: split at the last slash, if there is one. *)
Fixpoint rsplit_slash (s : string) : option (string * string) :=
  match s with
  | EmptyString => None
  | String c rest =>
      match rsplit_slash rest with
      | Some (a, b) => Some (String c a, b)
      | None => if Ascii.eqb c "/" then Some (EmptyString, rest) else None
      end
  end.

Definition rsplit1 (s : string) : list string :=
  match rsplit_slash s with
  | Some (a, b) => [a; b]
  | None => [s]
  end.

(** [iter(v)]: the items a loop over [v] sees. *)
Fixpoint chars (s : string) : list pyval :=
  match s with
  | EmptyString => []
  | String c r => PStr (String c EmptyString) :: chars r
  end.

Definition iter (v : pyval) : exn + list pyval :=
  match v with
  | PList l => inr l
  | PDict d => inr (map (fun kv => PStr (fst kv)) d)
  | PStr s => inr (chars s)
  | _ => inl TypeError
  end.

(** [l[i]] of a list of strings. *)
Definition index (l : list string) (i : nat) : exn + string :=
  match nth_error l i with
  | Some x => inr x
  | None => inl IndexError
  end.

(** ASCII lower case, for header names. *)
Definition lower_ascii (c : ascii) : ascii :=
  let n := nat_of_ascii c in
  if (Nat.leb 65 n && Nat.leb n 90)%bool then ascii_of_nat (n + 32) else c.

Fixpoint lower (s : string) : string :=
  match s with
  | EmptyString => EmptyString
  | String c r => String (lower_ascii c) (lower r)
  end.

End Py.

(** ** The world the client runs in *)

Definition dquote : string := String (ascii_of_nat 34) EmptyString.

(** Time is counted in milliseconds. *)
Definition seconds (n : Z) : Z := n * 1000.

(** A [requests.Response], as far as the client reads it. *)
Record Response : Type := mkResponse {
  status_code : Z;
  headers : list (string * string);
  text : string
}.

(** [response.headers[name]]: the header mapping of [requests] compares
    names without regard to case and reports the lowered name when it has
    none. *)
Definition header (r : Response) (name : string) : exn + string :=
  match find (fun kv => String.eqb (Py.lower (fst kv)) (Py.lower name))
             (headers r) with
  | Some kv => inr (snd kv)
  | None => inl (KeyError (Py.lower name))
  end.

(** The attributes of the client object: what [HttpClient.__init__] stores
    of its arguments, and the credential. *)
Record Client : Type := mkClient {
  base_url : string;
  max_retries : nat;
  backoff_factor : Z;            (* milliseconds *)
  status_forcelist : list Z;
  _auth_header : list (string * string)
}.

Inductive Event : Type :=
| EvSleep (ms : Z)
| EvPost (url : string) (auth : list (string * string)) (body : dict)
| EvGet (url : string) (auth : list (string * string))
| EvManifest.

Record World : Type := mkWorld {
  self : Client;
  clock : Z;                     (* [time.time()], in milliseconds *)
  n_post : nat;                  (* POST requests put on the wire so far *)
  n_get : nat;                   (* [get] calls made so far *)
  log : list Event;              (* requests and sleeps, oldest first *)
  out_file : option (list pyval) (* the rows of the result file, if it exists *)
}.

(** The remote service, as a script of its answers. *)
Record Server : Type := mkServer {
  (** what [post] to the token endpoint ends in *)
  token_endpoint : exn + dict;
  (** the response to the k-th POST put on the wire by [post_raw] *)
  post_wire : nat -> Response;
  (** how long the k-th [get] takes (ms) and what it ends in *)
  get_reply : nat -> nat * (exn + dict)
}.

Inductive outcome (A : Type) : Type :=
| Ret (a : A)
| Raise (e : exn)
| OutOfFuel.
Arguments Ret {A} a.
Arguments Raise {A} e.
Arguments OutOfFuel {A}.

(** A Python computation. *)
Definition M (A : Type) : Type := World -> World * outcome A.

Definition ret {A} (a : A) : M A := fun w => (w, Ret a).

Definition raise {A} (e : exn) : M A := fun w => (w, Raise e).

Definition out_of_fuel {A} : M A := fun w => (w, OutOfFuel).

Definition bind {A B} (c : M A) (k : A -> M B) : M B :=
  fun w =>
    match c w with
    | (w', Ret a) => k a w'
    | (w', Raise e) => (w', Raise e)
    | (w', OutOfFuel) => (w', OutOfFuel)
    end.

(** The value of an expression that may raise. *)
Definition lift {A} (r : exn + A) : M A :=
  match r with
  | inl e => raise e
  | inr a => ret a
  end.

(** [try: c except ...: h e]; [h] answers [None] for what it lets through. *)
Definition try_except {A} (c : M A) (h : exn -> option (M A)) : M A :=
  fun w =>
    match c w with
    | (w', Raise e) =>
        match h e with
        | Some k => k w'
        | None => (w', Raise e)
        end
    | r => r
    end.

Declare Scope py_scope.
Delimit Scope py_scope with py.
Notation "x <- c ;; k" := (bind c (fun x => k))
  (at level 61, c at next level, right associativity) : py_scope.
Notation "' p <- c ;; k" := (bind c (fun x => match x with p => k end))
  (at level 61, p pattern, c at next level, right associativity) : py_scope.
Local Open Scope py_scope.

Definition add_event (e : Event) (w : World) : World :=
  mkWorld (self w) (clock w) (n_post w) (n_get w) (log w ++ [e]) (out_file w).

Definition advance (ms : Z) (w : World) : World :=
  mkWorld (self w) (clock w + ms) (n_post w) (n_get w) (log w) (out_file w).

(** [time.sleep(secs)] *)
Definition sleep_ms (ms : Z) : M unit :=
  fun w => (advance ms (add_event (EvSleep ms) w), Ret tt).

Definition sleep (secs : Z) : M unit := sleep_ms (seconds secs).

(** [time.time()] *)
Definition time_time : M Z := fun w => (w, Ret (clock w)).

(** [self.<attribute>] *)
Definition self_attr {A} (f : Client -> A) : M A := fun w => (w, Ret (f (self w))).

(** [self._auth_header = h] *)
Definition set_auth_header (h : list (string * string)) : M unit :=
  fun w =>
    let c := self w in
    (mkWorld (mkClient (base_url c) (max_retries c) (backoff_factor c)
                       (status_forcelist c) h)
             (clock w) (n_post w) (n_get w) (log w) (out_file w), Ret tt).


(** ** [adform/api_service.py] *)

Definition BASE_URL : string := "https://api.adform.com".
Definition LOGIN_URL : string := "https://id.adform.com/sts/connect/token".

Definition END_BUYER_STATS : string := "v1/buyer/stats/data".
Definition END_BUYER_STATS_OPERATION : string := "v1/buyer/stats/operations/".

Definition DEFAULT_PAGING_LIMIT : Z := 100000.
Definition MAX_RETRIES : nat := 10.

(** wait between polls (s) *)
Definition DEFAULT_WAIT_INTERVAL : Z := 2.

Definition default_scope : string := "https://api.adform.com/scope/buyer.stats".

(** The base class keeps its URL with a trailing slash. *)
Definition with_trailing_slash (url : string) : string :=
  match Py.rsplit_slash url with
  | Some (_, EmptyString) => url
  | _ => url ++ "/"
  end.

Section Client.

(** [repr] of the interpreter, for the text of lists and dicts. *)
Variable repr : pyval -> string.

(** The service the client talks to. *)
Variable srv : Server.

(** [AdformClient.__init__(token)] *)
Definition AdformClient (token : pyval) : Client :=
  mkClient (with_trailing_slash BASE_URL)
           MAX_RETRIES
           300
           [429; 500; 502; 504]
           [("Authorization", "Bearer " ++ Py.str repr token)].

(** Modelled from the spec: the retry loop of the HTTP base class
    ([HttpClient.post_raw] of the [keboola.http_client] package, which is not
    part of the repository). A response whose status is in the configured
    [status_forcelist] is retried, after a sleep that doubles from
    [backoff_factor] on, until [max_retries] retries are used up; the request
    then fails with [RetryError]. Any other response is handed to the caller
    as it is. Every request carries the credential header. *)
Fixpoint post_raw_attempts (retries_left attempt : nat)
                           (endpoint_path : string) (body : dict) : M Response :=
  fun w =>
    let c := self w in
    let response := post_wire srv (n_post w) in
    let w1 := add_event (EvPost (base_url c ++ endpoint_path) (_auth_header c) body)
                (mkWorld (self w) (clock w) (S (n_post w)) (n_get w) (log w)
                         (out_file w)) in
    if existsb (Z.eqb (status_code response)) (status_forcelist c) then
      match retries_left with
      | O => (w1, Raise (RetryError ("too many "
                                     ++ Py.str_int (status_code response)
                                     ++ " error responses")))
      | S k =>
          bind (sleep_ms (backoff_factor c * 2 ^ Z.of_nat attempt))
               (fun _ => post_raw_attempts k (S attempt) endpoint_path body) w1
      end
    else (w1, Ret response).

Definition post_raw (endpoint_path : string) (body : dict) : M Response :=
  n <- self_attr max_retries ;;
  post_raw_attempts n 0 endpoint_path body.

(** [self.post(endpoint_path=LOGIN_URL, is_absolute_path=True, data=params)]:
    the decoded body of the token endpoint's answer, or what it raises. *)
Definition post (url : string) (data : dict) : M dict :=
  fun w =>
    (add_event (EvPost url (_auth_header (self w)) data) w,
     match token_endpoint srv with
     | inl e => Raise e
     | inr d => Ret d
     end).

(** [self.get(endpoint_path)]: the decoded body, or what the call raises. *)
Definition get (endpoint_path : string) : M dict :=
  fun w =>
    let '(latency, r) := get_reply srv (n_get w) in
    (advance (Z.of_nat latency)
       (add_event (EvGet endpoint_path (_auth_header (self w)))
          (mkWorld (self w) (clock w) (n_post w) (S (n_get w)) (log w)
                   (out_file w))),
     match r with
     | inl e => Raise e
     | inr d => Ret d
     end).

Definition login_using_client_credentials
           (client_id client_secret scope : string) : M unit :=
  let params := [("grant_type", PStr "client_credentials");
                 ("client_id", PStr client_id);
                 ("client_secret", PStr client_secret);
                 ("scope", PStr scope)] in
  secrets <- post LOGIN_URL params ;;
  let access_token := Py.str repr (Py.get secrets "access_token") in
  set_auth_header [("Authorization", "Bearer " ++ access_token)].

(** The request body that [_submit_stats_report] builds. *)
Definition submit_body (request_filter : dict) (dimensions metrics : list pyval)
                       (paging : pyval) : dict :=
  let body := [("dimensions", PList dimensions);
               ("filter", PDict request_filter);
               ("metrics", PList metrics)] in
  if Py.truthy paging then Py.set "paging" paging body else body.

Definition _submit_stats_report (request_filter : dict)
                                (dimensions metrics : list pyval)
                                (paging : pyval) : M (string * string) :=
  let body := submit_body request_filter dimensions metrics paging in
  response <-
    try_except (post_raw END_BUYER_STATS body)
      (fun e =>
         match e with
         | RetryError e_str =>
             Some (raise (AdformServerError
               ("Client is unable to fetch data from server, "
                ++ "please check your AdForm API quota limits in case of error #429"
                ++ " the maximum allowed number of requests has been reached, error: "
                ++ e_str)))
         | _ => None
         end) ;;
  if status_code response >? 299 then
    raise (AdformClientError
             ("Failed to submit report. Operation failed with code "
              ++ Py.str_int (status_code response)
              ++ ". Reason: " ++ text response))
  else
    operation_location <- lift (header response "Operation-Location") ;;
    operation_id <- lift (Py.index (Py.rsplit1 operation_location) 1) ;;
    location <- lift (header response "Location") ;;
    report_location_id <- lift (Py.index (Py.rsplit1 location) 1) ;;
    ret (operation_id, report_location_id).

(** The [while continue_polling] loop; it hands back [invalid_status] and
    [res] as they are when the loop is left. *)
Fixpoint polling (fuel : nat) (operation_id : string) (start : Z)
                 (invalid_status : bool) : M (bool * dict) :=
  match fuel with
  | O => out_of_fuel
  | S fuel' =>
      _ <- sleep DEFAULT_WAIT_INTERVAL ;;
      base <- self_attr base_url ;;
      let req_url := base ++ END_BUYER_STATS_OPERATION ++ operation_id in
      res <- get req_url ;;
      let invalid_status :=
        if negb (Py.mem "status" res) then true else invalid_status in
      let continue_polling :=
        if negb (Py.mem "status" res) then true
        else if Py.in_strs (Py.get res "status") ["succeeded"; "failed"]
             then false else true in
      now <- time_time ;;
      let continue_polling :=
        if negb (Py.mem "status" res) && (now - start >? seconds 60)
        then false else continue_polling in
      if continue_polling
      then polling fuel' operation_id start invalid_status
      else ret (invalid_status, res)
  end.

Definition _wait_until_operation_finished (fuel : nat) (operation_id : string)
  : M dict :=
  start <- time_time ;;
  '(invalid_status, res) <- polling fuel operation_id start false ;;
  if invalid_status then
    raise (AdformClientError
             ("Result could not be parsed. The result should return a status, but only"
              ++ "returned " ++ repr (PDict res)))
  else
    status <- lift (Py.subscript (PDict res) "status") ;;
    if Py.eq_str status "failed" then
      raise (AdformClientError
               ("Report job ID " ++ dquote ++ operation_id
                ++ " failed to process, please try again later." ++ dquote))
    else ret res.

Definition _get_report_result (location_id : string) : M dict :=
  let endpoint := END_BUYER_STATS ++ "/" ++ location_id in
  get endpoint.

(** [len(res.get('reportData')['rows'])] *)
Definition rows_len (res : dict) : exn + Z :=
  match Py.subscript (Py.get res "reportData") "rows" with
  | inl e => inl e
  | inr rows => Py.len rows
  end.

(** The frame of the generator that [get_report_data_paginated] returns. *)
Record Generator : Type := mkGenerator {
  gen_filter : dict;
  gen_dimensions : list pyval;
  gen_metrics : list pyval;
  has_more : bool;
  offset : Z
}.

Definition get_report_data_paginated (request_filter : dict)
                                     (dimensions metrics : list pyval)
  : Generator :=
  mkGenerator request_filter dimensions metrics true 0.

(** [next(g)]: one turn of [while has_more], up to the [yield]; [None] is
    [StopIteration]. [fuel] bounds the polls of the turn. *)
Definition next (fuel : nat) (g : Generator) : M (option (dict * Generator)) :=
  if has_more g then
    let paging := PDict [("offset", PInt (offset g));
                         ("limit", PInt DEFAULT_PAGING_LIMIT)] in
    '(operation_id, report_location_id) <-
      _submit_stats_report (gen_filter g) (gen_dimensions g) (gen_metrics g)
                           paging ;;
    _ <- _wait_until_operation_finished fuel operation_id ;;
    res <- _get_report_result report_location_id ;;
    n <- lift (rows_len res) ;;
    if n >? 0 then
      n' <- lift (rows_len res) ;;
      ret (Some (res, mkGenerator (gen_filter g) (gen_dimensions g)
                                  (gen_metrics g) (has_more g) (n' + offset g)))
    else
      ret (Some (res, mkGenerator (gen_filter g) (gen_dimensions g)
                                  (gen_metrics g) false (offset g)))
  else ret None.

(** [list(g)]: the pages the generator yields until it stops; [turns] bounds
    the number of [next] calls. *)
Fixpoint drain (turns fuel : nat) (g : Generator) : M (list dict) :=
  match turns with
  | O => out_of_fuel
  | S turns' =>
      r <- next fuel g ;;
      match r with
      | None => ret []
      | Some (res, g') =>
          rest <- drain turns' fuel g' ;;
          ret (res :: rest)
      end
  end.

End Client.


(** ** [component.py]: the fetch stage of [Component.run] *)

(** The names that the body of [class AdformClient] binds. *)
Definition AdformClient_dict : list string :=
  ["__init__"; "login_using_client_credentials"; "_submit_stats_report";
   "_wait_until_operation_finished"; "_get_report_result";
   "get_report_data_paginated"].

Definition has_name (name : string) (names : list string) : bool :=
  existsb (String.eqb name) names.

(** [client.<name>] finds the name in the class, or in what the base class
    and the instance provide, or raises. *)
Definition getattr (inherited : list string) (name : string) : exn + unit :=
  if has_name name AdformClient_dict then inr tt
  else if has_name name inherited then inr tt
  else inl (AttributeError name).

(** [writer.writerow(row)] *)
Definition writerow (row : pyval) : M unit :=
  fun w =>
    match Py.iter row with
    | inl _ => (w, Raise CsvError)
    | inr _ =>
        (mkWorld (self w) (clock w) (n_post w) (n_get w) (log w)
                 (Some (match out_file w with
                        | Some rows => (rows ++ [row])%list
                        | None => [row]
                        end)), Ret tt)
    end.

Fixpoint writerows (rows : list pyval) : M unit :=
  match rows with
  | [] => ret tt
  | row :: rest => _ <- writerow row ;; writerows rest
  end.

(** [open(file_path, mode)] with mode ['a'] or ['w+']. *)
Definition open_out (fresh : bool) : M unit :=
  fun w =>
    (mkWorld (self w) (clock w) (n_post w) (n_get w) (log w)
             (if fresh then Some []
              else match out_file w with
                   | Some rows => Some rows
                   | None => Some []
                   end), Ret tt).

Definition store_results (report_result : dict) : M unit :=
  fresh <- (fun w => (w, Ret (match out_file w with
                              | Some _ => false
                              | None => true
                              end))) ;;
  report_data <- lift (Py.subscript (PDict report_result) "reportData") ;;
  columns <- lift (Py.subscript report_data "columnHeaders") ;;
  _ <- open_out fresh ;;
  _ <- (if fresh then writerow columns else ret tt) ;;
  report_data <- lift (Py.subscript (PDict report_result) "reportData") ;;
  rows <- lift (Py.subscript report_data "rows") ;;
  items <- lift (Py.iter rows) ;;
  writerows items.

Definition write_manifest : M unit :=
  fun w => (add_event EvManifest w, Ret tt).

Section Component.

(** The attribute names that the base class and the instance provide. *)
Variable inherited : list string.

(** What the loop over [client.get_report_data(...)] does with its body,
    when the client has such an attribute. *)
Variable loop_found :
  dict -> list pyval -> list pyval -> (dict -> M unit) -> M unit.

(** [Component.run], from the [try] on. *)
Definition run_fetch (filter_def : dict) (dimensions metric_definitions : list pyval)
  : M unit :=
  _ <- try_except
         (_ <- lift (getattr inherited "get_report_data") ;;
          loop_found filter_def dimensions metric_definitions store_results)
         (fun e =>
            match e with
            | AdformClientError _ => Some (raise (UserException e))
            | AdformServerError _ => Some (raise (UserException e))
            | _ => None
            end) ;;
  write_manifest.

End Component.

(** The exit status that [__main__] gives a run; [None] while it runs. *)
Definition exit_status (o : outcome unit) : option Z :=
  match o with
  | Ret _ => Some 0
  | Raise (UserException _) => Some 1
  | Raise _ => Some 2
  | OutOfFuel => None
  end.

(** ** Services and observations that the statements speak of *)

(** A fresh process: nothing requested, no result file. *)
Definition init_world (c : Client) : World := mkWorld c 0 0 0 [] None.

(** A submission answered with both location headers. *)
Definition submit_accepted (code : Z) : Response :=
  mkResponse code
             [("Operation-Location", "/v1/buyer/stats/operations/op-1");
              ("Location", "/v1/buyer/stats/data/loc-1")]
             "".

Definition page_of (columns rows : list pyval) : dict :=
  [("reportData", PDict [("columnHeaders", PList columns);
                         ("rows", PList rows)])].

Definition status_doc (status : string) : dict := [("status", PStr status)].

(** A mocked service: it accepts every submission, reports [succeeded] at
    the first poll and serves the given pages in turn, then empty pages. *)
Definition paged_server (columns : list pyval) (pages : list (list pyval))
  : Server :=
  mkServer (inr [])
           (fun _ => submit_accepted 202)
           (fun k => (0%nat,
                      inr (if Nat.even k then status_doc "succeeded"
                           else page_of columns (nth (Nat.div2 k) pages [])))).

(** A mocked status endpoint: [anomalies] answers without a status field,
    then the document [d] for ever. *)
Definition anomalous_then (anomalies : nat) (d : dict) : Server :=
  mkServer (inr [])
           (fun _ => submit_accepted 202)
           (fun k => (0%nat, inr (if Nat.ltb k anomalies then [] else d))).

(** A mocked submit endpoint that answers with the given status codes in
    turn, then with 200. *)
Definition status_script (codes : list Z) (body : string) : Server :=
  mkServer (inr [])
           (fun k => mkResponse (nth k codes 200)
                                (headers (submit_accepted 200)) body)
           (fun _ => (0%nat, inr (status_doc "succeeded"))).

(** The clock after [j] polls that start at time [t] with the [k0]-th
    [get]. *)
Fixpoint poll_time (srv : Server) (k0 : nat) (t : Z) (j : nat) : Z :=
  match j with
  | O => t
  | S j' =>
      poll_time srv (S k0)
                (t + seconds DEFAULT_WAIT_INTERVAL
                 + Z.of_nat (fst (get_reply srv k0))) j'
  end.


(** The [paging] values of the POST requests of a log, oldest first. *)
Fixpoint posted_pagings (l : list Event) : list pyval :=
  match l with
  | [] => []
  | EvPost _ _ body :: l' => Py.get body "paging" :: posted_pagings l'
  | _ :: l' => posted_pagings l'
  end.

Definition count_posts (l : list Event) : nat :=
  List.length (filter (fun e => match e with EvPost _ _ _ => true | _ => false end) l).

(** The sleeps of a log, oldest first. *)
Fixpoint sleeps (l : list Event) : list Z :=
  match l with
  | [] => []
  | EvSleep ms :: l' => ms :: sleeps l'
  | _ :: l' => sleeps l'
  end.

(** [o; o + s1; o + s1 + s2; ...] *)
Fixpoint running_sums (o : Z) (sizes : list Z) : list Z :=
  match sizes with
  | [] => [o]
  | s :: rest => o :: running_sums (o + s) rest
  end.

Definition paging_of (o : Z) : pyval :=
  PDict [("offset", PInt o); ("limit", PInt DEFAULT_PAGING_LIMIT)].

Definition has_rows (page : dict) : bool :=
  match rows_len page with
  | inr n => n >? 0
  | inl _ => false
  end.

(** A body with the three fields and a paging window of the fixed limit. *)
Definition paged_body (body : dict) : Prop :=
  map fst body = ["dimensions"; "filter"; "metrics"; "paging"]
  /\ exists o, Py.lookup "paging" body = Some (paging_of o).

(** An event of a client whose credential is [auth] and whose submissions
    satisfy [B]. *)
Definition event_ok (auth : list (string * string)) (B : dict -> Prop)
                    (e : Event) : Prop :=
  match e with
  | EvPost _ a body => a = auth /\ B body
  | EvGet _ a => a = auth
  | _ => True
  end.

(** [text] occurs in [s]. *)
Fixpoint contains (text s : string) : bool :=
  if String.prefix text s then true
  else match s with
       | EmptyString => false
       | String _ rest => contains text rest
       end.

Local Open Scope list_scope.

(** The retry settings that [AdformClient.__init__] hands to its base
    class. *)
Definition configured (c : Client) : Prop :=
  max_retries c = MAX_RETRIES
  /\ backoff_factor c = 300
  /\ status_forcelist c = [429; 500; 502; 504].

(** The transport retries a response of this status. *)
Definition retryable (c : Client) (r : Response) : bool :=
  existsb (Z.eqb (status_code r)) (status_forcelist c).

Definition has_header (r : Response) (name : string) : bool :=
  match header r name with
  | inr _ => true
  | inl _ => false
  end.

(** An outcome that is one of the client's own two error classes. *)
Definition classified {A} (o : outcome A) : Prop :=
  exists msg, o = Raise (AdformClientError msg)
              \/ o = Raise (AdformServerError msg).

(** The status of a document is one that ends the polling. *)
Definition terminal (d : dict) : bool :=
  Py.mem "status" d && Py.in_strs (Py.get d "status") ["succeeded"; "failed"].

(** [w'] is [w] after requests and sleeps of the same client, whose
    requests carry [auth] and whose submitted bodies satisfy [B]. *)
Definition appends (auth : list (string * string)) (B : dict -> Prop)
                   (w w' : World) : Prop :=
  self w' = self w
  /\ exists new, log w' = log w ++ new /\ Forall (event_ok auth B) new.

Definition keeps {A} (B : dict -> Prop) (c : M A) : Prop :=
  forall w, appends (_auth_header (self w)) B w (fst (c w)).

(** The URL that the poller queries. *)
Definition status_url (c : Client) (operation_id : string) : string :=
  (base_url c ++ END_BUYER_STATS_OPERATION ++ operation_id)%string.

(** The world after one more turn of the polling loop: the sleep, then the
    status query. *)
Definition after_poll (srv : Server) (operation_id : string) (w : World)
  : World :=
  mkWorld (self w)
          (clock w + seconds DEFAULT_WAIT_INTERVAL
           + Z.of_nat (fst (get_reply srv (n_get w))))
          (n_post w) (S (n_get w))
          (log w ++ [EvSleep (seconds DEFAULT_WAIT_INTERVAL);
                     EvGet (status_url (self w) operation_id)
                           (_auth_header (self w))])
          (out_file w).

Fixpoint after_polls (srv : Server) (operation_id : string) (n : nat)
                     (w : World) : World :=
  match n with
  | O => w
  | S n' => after_polls srv operation_id n' (after_poll srv operation_id w)
  end.

(** The loop is left after a poll that answered [d], [elapsed] after the
    loop began. *)
Definition leaves_loop (d : dict) (elapsed : Z) : bool :=
  terminal d || (negb (Py.mem "status" d) && (elapsed >? seconds 60)).

(** The text of the error for an answer without a status. *)
Definition unparsed (repr : pyval -> string) (res : dict) : string :=
  ("Result could not be parsed. The result should return a status, but only"
   ++ "returned " ++ repr (PDict res))%string.

(** Some of the [n] answers from the [k0]-th [get] on has no status. *)
Fixpoint anomaly_among (srv : Server) (k0 n : nat) : bool :=
  match n with
  | O => false
  | S n' =>
      match snd (get_reply srv k0) with
      | inr d => negb (Py.mem "status" d)
      | inl _ => false
      end || anomaly_among srv (S k0) n'
  end.

(** The world after one POST of [body] put on the wire. *)
Definition after_post (endpoint_path : string) (body : dict) (w : World)
  : World :=
  mkWorld (self w) (clock w) (S (n_post w)) (n_get w)
          (log w ++ [EvPost (base_url (self w) ++ endpoint_path)%string
                            (_auth_header (self w)) body])
          (out_file w).

(** The sleeps before the retries [attempt], [attempt + 1], ... ([k] of
    them). *)
Definition backoffs (c : Client) (attempt k : nat) : list Z :=
  map (fun i => backoff_factor c * 2 ^ Z.of_nat (attempt + i)) (seq 0 k).

(** The text that [_submit_stats_report] puts before the transport's
    error. *)
Definition quota_hint : string :=
  ("Client is unable to fetch data from server, "
   ++ "please check your AdForm API quota limits in case of error #429"
   ++ " the maximum allowed number of requests has been reached, error: ")%string.

(** A [repr] for the examples. *)
Definition no_repr (v : pyval) : string := "<object>".

(** A service that accepts a submission without any header. *)
Definition headerless : Server :=
  mkServer (inr [])
           (fun _ => mkResponse 200 [] "")
           (fun _ => (0%nat, inr (status_doc "succeeded"))).

(** The first thing that happened between [w] and [w'] is a POST of
    [body]. *)
Definition first_post (url : string) (body : dict) (w w' : World) : Prop :=
  exists tail,
    log w' = log w ++ EvPost (base_url (self w) ++ url)%string
                             (_auth_header (self w)) body :: tail.

(** A service whose token endpoint answers with the document [secrets]. *)
Definition token_server (secrets : dict) : Server :=
  mkServer (inr secrets)
           (fun _ => submit_accepted 202)
           (fun _ => (0%nat, inr (status_doc "succeeded"))).

(** The client and the world of the examples. *)
Definition example_client : Client := AdformClient no_repr (PStr "token").

Definition example_world : World := init_world example_client.

(** ** [component.py]: the metric definitions *)

Definition KEY_METRIC_NAME : string := "metric".
Definition KEY_METRIC_SPEC : string := "specs_metadata".
Definition KEY_METRIC_SPEC_KEY : string := "key".
Definition KEY_METRIC_SPEC_VALUE : string := "value".

(** A [dict] whose keys are any hashable values, in insertion order. *)
Definition pydict : Type := list (pyval * pyval).

(** [hash(v)] succeeds: lists and dicts are not hashable. *)
Definition hashable (v : pyval) : bool :=
  match v with
  | PList _ => false
  | PDict _ => false
  | _ => true
  end.

(** The number that a [bool] or an [int] is as a key. *)
Definition key_num (v : pyval) : option Z :=
  match v with
  | PBool b => Some (if b then 1 else 0)
  | PInt z => Some z
  | _ => None
  end.

(** Two hashable values are the same key: [True] and [1] are, a string and
    a number never. *)
Definition key_eqb (a b : pyval) : bool :=
  match a, b with
  | PNone, PNone => true
  | PStr s, PStr t => String.eqb s t
  | _, _ =>
      match key_num a, key_num b with
      | Some x, Some y => x =? y
      | _, _ => false
      end
  end.

Fixpoint key_lookup (k : pyval) (d : pydict) : option pyval :=
  match d with
  | [] => None
  | (k', v) :: d' => if key_eqb k k' then Some v else key_lookup k d'
  end.

(** [d[k] = v]: an equal key keeps its place and its first spelling. *)
Fixpoint key_set (k v : pyval) (d : pydict) : pydict :=
  match d with
  | [] => [(k, v)]
  | (k', v') :: d' =>
      if key_eqb k k' then (k', v) :: d' else (k', v') :: key_set k v d'
  end.

(** The comprehension of [build_specs], entry by entry: the key, then the
    value, then the store, which hashes the key. *)
Fixpoint specs_into (acc : pydict) (items : list pyval) : exn + pydict :=
  match items with
  | [] => inr acc
  | s :: rest =>
      match Py.subscript s KEY_METRIC_SPEC_KEY with
      | inl e => inl e
      | inr k =>
          match Py.subscript s KEY_METRIC_SPEC_VALUE with
          | inl e => inl e
          | inr v =>
              if hashable k then specs_into (key_set k v acc) rest
              else inl TypeError
          end
      end
  end.

Definition build_specs (spec_metadata : pyval) : exn + pydict :=
  match Py.iter spec_metadata with
  | inl e => inl e
  | inr items => specs_into [] items
  end.

(** The dict [{"metric": ..., "specs": ...}] of one metric. *)
Record metric_def : Type := mkMetric {
  metric : pyval;
  specs : pydict
}.

Fixpoint metrics_of (items : list pyval) : exn + list metric_def :=
  match items with
  | [] => inr []
  | m :: rest =>
      match Py.subscript m KEY_METRIC_NAME with
      | inl e => inl e
      | inr name =>
          match Py.subscript m KEY_METRIC_SPEC with
          | inl e => inl e
          | inr spec_metadata =>
              match build_specs spec_metadata with
              | inl e => inl e
              | inr sp =>
                  match metrics_of rest with
                  | inl e => inl e
                  | inr defs => inr (mkMetric name sp :: defs)
                  end
              end
          end
      end
  end.

Definition build_metrics (metrics_cfg : pyval) : exn + list metric_def :=
  match Py.iter metrics_cfg with
  | inl e => inl e
  | inr items => metrics_of items
  end.

(** The value that the last entry with the key [k] gives it, if any entry
    has that key. *)
Fixpoint last_spec (k : pyval) (items : list pyval) (found : option pyval)
  : option pyval :=
  match items with
  | [] => found
  | s :: rest =>
      last_spec k rest
        match Py.subscript s KEY_METRIC_SPEC_KEY,
              Py.subscript s KEY_METRIC_SPEC_VALUE with
        | inr k', inr v => if key_eqb k k' then Some v else found
        | _, _ => found
        end
  end.

(** One metric definition is built from one entry of the configuration. *)
Definition built_from (m : pyval) (d : metric_def) : Prop :=
  Py.subscript m KEY_METRIC_NAME = inr (metric d)
  /\ exists spec_metadata,
       Py.subscript m KEY_METRIC_SPEC = inr spec_metadata
       /\ build_specs spec_metadata = inr (specs d).

(** ** More services and observations *)

(** There is a slash in [s]. *)
Fixpoint has_slash (s : string) : bool :=
  match s with
  | EmptyString => false
  | String c rest => Ascii.eqb c "/" || has_slash rest
  end.

(** A service that accepts every submission and answers the [get] calls
    with the given outcomes in turn, then with [last] for ever, each after
    [latency] milliseconds. *)
Definition replying (latency : nat) (replies : list (exn + dict))
                    (last : exn + dict) : Server :=
  mkServer (inr [])
           (fun _ => submit_accepted 202)
           (fun k => (latency, nth k replies last)).

(** The loop of [Component.run] over the pages [pages]. *)
Fixpoint store_each (pages : list dict) : M unit :=
  match pages with
  | [] => ret tt
  | res :: rest => bind (store_results res) (fun _ => store_each rest)
  end.

(** The text of the error for a report that failed. *)
Definition job_failed (operation_id : string) : string :=
  ("Report job ID " ++ dquote ++ operation_id
   ++ " failed to process, please try again later." ++ dquote)%string.

(** [iter(v)] succeeds. *)
Definition iterable (v : pyval) : bool :=
  match Py.iter v with
  | inr _ => true
  | inl _ => false
  end.

(** ** Basic facts *)



Lemma appends_refl auth B w : appends auth B w w.
Proof.
  split; [reflexivity|]. exists []. split; [now rewrite app_nil_r | constructor].
Qed.

Lemma appends_trans auth B w1 w2 w3 :
  appends auth B w1 w2 -> appends auth B w2 w3 -> appends auth B w1 w3.
Proof.
  intros [Hs1 [n1 [Hl1 Hf1]]] [Hs2 [n2 [Hl2 Hf2]]].
  split; [congruence|].
  exists (n1 ++ n2). split.
  - rewrite Hl2, Hl1. now rewrite app_assoc.
  - apply Forall_app. now split.
Qed.

Lemma keeps_ret {A} B (a : A) : keeps B (ret a).
Proof. intro w. apply appends_refl. Qed.

Lemma keeps_raise {A} B e : keeps B (@raise A e).
Proof. intro w. apply appends_refl. Qed.

Lemma keeps_out_of_fuel {A} B : keeps B (@out_of_fuel A).
Proof. intro w. apply appends_refl. Qed.

Lemma keeps_lift {A} B (r : exn + A) : keeps B (lift r).
Proof. destruct r; [apply keeps_raise | apply keeps_ret]. Qed.

Lemma keeps_self_attr {A} B (f : Client -> A) : keeps B (self_attr f).
Proof. intro w. apply appends_refl. Qed.

Lemma keeps_time_time B : keeps B time_time.
Proof. intro w. apply appends_refl. Qed.

Lemma keeps_bind {A C} B (c : M A) (k : A -> M C) :
  keeps B c -> (forall a, keeps B (k a)) -> keeps B (bind c k).
Proof.
  intros Hc Hk w. unfold bind.
  specialize (Hc w). destruct (c w) as [w1 [a|e|]]; simpl in *; try exact Hc.
  eapply appends_trans; [exact Hc|].
  destruct Hc as [Hs _]. rewrite <- Hs. apply Hk.
Qed.

Lemma keeps_try_except {A} B (c : M A) h :
  keeps B c -> (forall e k, h e = Some k -> keeps B k) ->
  keeps B (try_except c h).
Proof.
  intros Hc Hh w. unfold try_except.
  specialize (Hc w). destruct (c w) as [w1 [a|e|]]; simpl in *; try exact Hc.
  destruct (h e) as [k|] eqn:He; simpl; [|exact Hc].
  eapply appends_trans; [exact Hc|].
  destruct Hc as [Hs _]. rewrite <- Hs. eapply Hh; eassumption.
Qed.

Lemma appends_one auth B w w' e :
  self w' = self w -> log w' = log w ++ [e] -> event_ok auth B e ->
  appends auth B w w'.
Proof.
  intros Hs Hl He. split; [exact Hs|]. exists [e]. split; [exact Hl|].
  constructor; [exact He | constructor].
Qed.

Lemma keeps_sleep_ms B ms : keeps B (sleep_ms ms).
Proof.
  intro w. apply appends_one with (e := EvSleep ms); simpl; auto.
Qed.

Lemma keeps_get srv B url : keeps B (get srv url).
Proof.
  intro w. unfold get. destruct (get_reply srv (n_get w)) as [lat r]; simpl.
  apply appends_one with (e := EvGet url (_auth_header (self w))); simpl; auto.
Qed.

Lemma keeps_post_raw_attempts srv (B : dict -> Prop) k attempt url body :
  B body -> keeps B (post_raw_attempts srv k attempt url body).
Proof.
  intro HB. revert attempt. induction k as [|k IH]; intros attempt w.
  - simpl. destruct (existsb _ _); simpl;
      eapply appends_one; simpl; try reflexivity; simpl; auto.
  - simpl. destruct (existsb _ _); simpl.
    + eapply appends_trans.
      * eapply appends_one with
          (e := EvPost (base_url (self w) ++ url) (_auth_header (self w)) body)
          (w' := add_event (EvPost (base_url (self w) ++ url)
                                   (_auth_header (self w)) body)
                   (mkWorld (self w) (clock w) (S (n_post w)) (n_get w)
                            (log w) (out_file w)));
          simpl; auto.
      * match goal with
        | |- appends _ _ ?w0 (fst (bind ?c ?f ?w1)) =>
            refine (@keeps_bind _ _ B c f _ _ w1)
        end.
        -- apply keeps_sleep_ms.
        -- intros _. apply IH.
    + eapply appends_one; simpl; try reflexivity; simpl; auto.
Qed.

Lemma keeps_post_raw srv (B : dict -> Prop) url body :
  B body -> keeps B (post_raw srv url body).
Proof.
  intro HB. unfold post_raw. apply keeps_bind.
  - apply keeps_self_attr.
  - intro n. now apply keeps_post_raw_attempts.
Qed.

Lemma keeps_submit srv (B : dict -> Prop) rf dims mets paging :
  B (submit_body rf dims mets paging) ->
  keeps B (_submit_stats_report srv rf dims mets paging).
Proof.
  intro HB. unfold _submit_stats_report. apply keeps_bind.
  - apply keeps_try_except.
    + now apply keeps_post_raw.
    + intros e k He. destruct e; try discriminate.
      injection He as <-. apply keeps_raise.
  - intro response. destruct (status_code response >? 299).
    + apply keeps_raise.
    + repeat (apply keeps_bind; [apply keeps_lift | intro]).
      apply keeps_ret.
Qed.

Lemma keeps_polling srv B fuel op start inv :
  keeps B (polling srv fuel op start inv).
Proof.
  revert inv. induction fuel as [|fuel IH]; intro inv; simpl.
  - apply keeps_out_of_fuel.
  - apply keeps_bind; [apply keeps_sleep_ms | intros _].
    apply keeps_bind; [apply keeps_self_attr | intro base].
    apply keeps_bind; [apply keeps_get | intro res].
    apply keeps_bind; [apply keeps_time_time | intro now].
    match goal with |- keeps _ (if ?b then _ else _) => destruct b end.
    + apply IH.
    + apply keeps_ret.
Qed.

Lemma keeps_wait repr srv B fuel op :
  keeps B (_wait_until_operation_finished repr srv fuel op).
Proof.
  unfold _wait_until_operation_finished.
  apply keeps_bind; [apply keeps_time_time | intro start].
  apply keeps_bind; [apply keeps_polling | intros [inv res]].
  destruct inv; [apply keeps_raise|].
  apply keeps_bind; [apply keeps_lift | intro st].
  destruct (Py.eq_str st "failed"); [apply keeps_raise | apply keeps_ret].
Qed.

Lemma paged_body_paging rf dims mets o :
  paged_body (submit_body rf dims mets (paging_of o)).
Proof.
  split; [reflexivity|]. exists o. reflexivity.
Qed.

Lemma keeps_next repr srv fuel g :
  keeps paged_body (next repr srv fuel g).
Proof.
  unfold next. destruct (has_more g); [|apply keeps_ret].
  apply keeps_bind.
  - apply keeps_submit. apply paged_body_paging.
  - intros [op loc].
    apply keeps_bind; [apply keeps_wait | intros _].
    apply keeps_bind; [apply keeps_get | intro res].
    apply keeps_bind; [apply keeps_lift | intro n].
    destruct (n >? 0).
    + apply keeps_bind; [apply keeps_lift | intro n']. apply keeps_ret.
    + apply keeps_ret.
Qed.

Lemma keeps_drain repr srv turns fuel g :
  keeps paged_body (drain repr srv turns fuel g).
Proof.
  revert g. induction turns as [|turns IH]; intro g; simpl.
  - apply keeps_out_of_fuel.
  - apply keeps_bind; [apply keeps_next | intros [[res g']|]].
    + apply keeps_bind; [apply IH | intro rest]. apply keeps_ret.
    + apply keeps_ret.
Qed.

(** ** The polling loop *)

Lemma polling_step srv fuel op start inv w :
  polling srv (S fuel) op start inv w
  = match snd (get_reply srv (n_get w)) with
    | inl e => (after_poll srv op w, Raise e)
    | inr res =>
        let inv' := inv || negb (Py.mem "status" res) in
        if leaves_loop res (clock (after_poll srv op w) - start)
        then (after_poll srv op w, Ret (inv', res))
        else polling srv fuel op start inv' (after_poll srv op w)
    end.
Proof.
  cbn [polling]. unfold bind at 1. unfold sleep, sleep_ms.
  unfold bind at 1. unfold self_attr.
  unfold bind at 1. unfold get.
  unfold after_poll, status_url, advance, add_event.
  cbn [n_get self log clock n_post out_file].
  rewrite <- app_assoc. cbn [app].
  destruct (get_reply srv (n_get w)) as [lat [e|res]]; cbn [fst snd].
  - reflexivity.
  - unfold bind at 1. unfold time_time. cbn [clock].
    unfold leaves_loop, terminal.
    destruct (Py.mem "status" res); cbn [negb andb orb].
    + rewrite !orb_false_r.
      destruct (Py.in_strs (Py.get res "status") ["succeeded"; "failed"]);
        reflexivity.
    + rewrite orb_true_r.
      destruct (_ >? seconds 60); reflexivity.
Qed.

Lemma after_polls_n_get srv op n w :
  n_get (after_polls srv op n w) = (n_get w + n)%nat.
Proof.
  revert w. induction n as [|n IH]; intro w; simpl; [lia|].
  rewrite IH. simpl. lia.
Qed.

Lemma after_polls_clock srv op n w :
  clock (after_polls srv op n w) = poll_time srv (n_get w) (clock w) n.
Proof.
  revert w. induction n as [|n IH]; intro w; simpl; [reflexivity|].
  rewrite IH. reflexivity.
Qed.


Lemma after_polls_succ srv op n w :
  after_polls srv op (S n) w = after_poll srv op (after_polls srv op n w).
Proof.
  revert w. induction n as [|n IH]; intro w; [reflexivity|].
  change (after_polls srv op (S (S n)) w)
    with (after_polls srv op (S n) (after_poll srv op w)).
  rewrite IH. reflexivity.
Qed.

Lemma poll_time_lower srv k t n :
  t + seconds DEFAULT_WAIT_INTERVAL * Z.of_nat n <= poll_time srv k t n.
Proof.
  revert k t. induction n as [|n IH]; intros k t.
  - simpl. lia.
  - cbn [poll_time]. specialize (IH (S k)
      (t + seconds DEFAULT_WAIT_INTERVAL + Z.of_nat (fst (get_reply srv k)))).
    unfold seconds, DEFAULT_WAIT_INTERVAL in *. lia.
Qed.

Lemma poll_time_mono srv k t i n :
  (i <= n)%nat -> poll_time srv k t i <= poll_time srv k t n.
Proof.
  revert k t n. induction i as [|i IH]; intros k t n Hin.
  - simpl. pose proof (poll_time_lower srv k t n).
    unfold seconds, DEFAULT_WAIT_INTERVAL in *. lia.
  - destruct n as [|n]; [lia|]. cbn [poll_time]. apply IH. lia.
Qed.



Lemma anomaly_among_at srv k0 n i d :
  (i < n)%nat -> snd (get_reply srv (k0 + i)) = inr d ->
  Py.mem "status" d = false -> anomaly_among srv k0 n = true.
Proof.
  revert k0 i. induction n as [|n IH]; intros k0 i Hi Hd Hm; [lia|].
  cbn [anomaly_among]. destruct i as [|i].
  - rewrite Nat.add_0_r in Hd. rewrite Hd, Hm. reflexivity.
  - apply orb_true_iff. right. apply (IH (S k0) i); [lia| |exact Hm].
    now replace (S k0 + i)%nat with (k0 + S i)%nat by lia.
Qed.

Lemma polling_run srv op start n :
  forall inv w fuel,
    (forall i, (i < n)%nat ->
       exists d, snd (get_reply srv (n_get w + i)) = inr d
                 /\ leaves_loop d (clock (after_polls srv op (S i) w) - start)
                    = false) ->
    polling srv (n + fuel) op start inv w
    = polling srv fuel op start (inv || anomaly_among srv (n_get w) n)
              (after_polls srv op n w).
Proof.
  induction n as [|n IH]; intros inv w fuel Hstay.
  - cbn [anomaly_among after_polls Nat.add]. now rewrite orb_false_r.
  - destruct (Hstay 0%nat) as [d [Hd Hl]]; [lia|].
    rewrite Nat.add_0_r in Hd. cbn [after_polls] in Hl.
    cbn [Nat.add]. rewrite polling_step, Hd. cbn zeta. rewrite Hl.
    rewrite IH.
    + cbn [anomaly_among after_polls n_get after_poll]. rewrite Hd.
      now rewrite orb_assoc.
    + intros i Hi. destruct (Hstay (S i)) as [d' [Hd' Hl']]; [lia|].
      exists d'. split.
      * cbn [n_get after_poll].
        now replace (S (n_get w) + i)%nat with (n_get w + S i)%nat by lia.
      * exact Hl'.
Qed.

(** C1, as the code behaves. When the [n + 1]-th poll brings a terminal
    status within 60 seconds of the start of the loop, and some earlier
    answer had no status field (the other earlier answers being not
    terminal), the poller does not return on that terminal status: it raises
    the [AdformClientError] for an unparsed result, quoting the terminal
    answer itself. *)
Theorem anomaly_fails_terminal_status :
  forall repr srv op w n j dj res,
    (j < n)%nat ->
    snd (get_reply srv (n_get w + j)) = inr dj ->
    Py.mem "status" dj = false ->
    (forall i, (i < n)%nat ->
       exists d, snd (get_reply srv (n_get w + i)) = inr d
                 /\ terminal d = false) ->
    snd (get_reply srv (n_get w + n)) = inr res ->
    terminal res = true ->
    poll_time srv (n_get w) (clock w) (S n) - clock w < seconds 60 ->
    forall fuel, (n < fuel)%nat ->
      _wait_until_operation_finished repr srv fuel op w
      = (after_polls srv op (S n) w,
         Raise (AdformClientError (unparsed repr res))).
Proof.
  intros repr srv op w n j dj res Hj Hdj Hmj Hearly Hres Hterm Htime fuel Hf.
  unfold _wait_until_operation_finished.
  unfold bind at 1. unfold time_time at 1. unfold bind at 1.
  replace fuel with (n + S (fuel - S n))%nat by lia.
  rewrite polling_run.
  - rewrite polling_step. rewrite after_polls_n_get, Hres. cbn zeta.
    unfold leaves_loop. rewrite Hterm. cbn [orb].
    rewrite (anomaly_among_at srv (n_get w) n j dj Hj Hdj Hmj).
    cbn [orb]. rewrite <- after_polls_succ. reflexivity.
  - intros i Hi. destruct (Hearly i Hi) as [d [Hd Ht]].
    exists d. split; [exact Hd|]. unfold leaves_loop. rewrite Ht. cbn [orb].
    rewrite after_polls_clock.
    pose proof (poll_time_mono srv (n_get w) (clock w) (S i) (S n)).
    replace (_ >? seconds 60) with false; [now rewrite andb_false_r|].
    symmetry. rewrite Z.gtb_ltb. apply Z.ltb_ge. lia.
Qed.

(** ** The transport and the submission *)

Lemma sleeps_app l1 l2 : sleeps (l1 ++ l2) = sleeps l1 ++ sleeps l2.
Proof.
  induction l1 as [|[ms|u a b|u a|] l1 IH]; simpl; rewrite ?IH; reflexivity.
Qed.

Lemma posted_pagings_app l1 l2 :
  posted_pagings (l1 ++ l2) = posted_pagings l1 ++ posted_pagings l2.
Proof.
  induction l1 as [|[ms|u a b|u a|] l1 IH]; simpl; rewrite ?IH; reflexivity.
Qed.

Lemma post_raw_attempts_recover srv url body :
  forall j k attempt w,
    (j <= k)%nat ->
    (forall i, (i < j)%nat ->
       retryable (self w) (post_wire srv (n_post w + i)) = true) ->
    retryable (self w) (post_wire srv (n_post w + j)) = false ->
    exists w' new,
      post_raw_attempts srv k attempt url body w
      = (w', Ret (post_wire srv (n_post w + j)))
      /\ self w' = self w
      /\ n_post w' = (n_post w + S j)%nat
      /\ n_get w' = n_get w
      /\ out_file w' = out_file w
      /\ log w' = log w ++ new
      /\ count_posts new = S j
      /\ posted_pagings new = repeat (Py.get body "paging") (S j)
      /\ sleeps new = backoffs (self w) attempt j.
Proof.
  induction j as [|j IH]; intros k attempt w Hjk Hretry Hlast.
  - rewrite Nat.add_0_r in Hlast. unfold retryable in Hlast.
    exists (after_post url body w),
           [EvPost (base_url (self w) ++ url)%string (_auth_header (self w)) body].
    split; [|repeat split; simpl; lia].
    destruct k; cbn [post_raw_attempts]; rewrite Hlast, Nat.add_0_r; reflexivity.
  - destruct k as [|k]; [lia|].
    pose proof (Hretry 0%nat ltac:(lia)) as H0.
    rewrite Nat.add_0_r in H0. unfold retryable in H0.
    cbn [post_raw_attempts]. rewrite H0.
    unfold bind, sleep_ms.
    match goal with
    | |- context [post_raw_attempts srv k (S attempt) url body ?w1] =>
        destruct (IH k (S attempt) w1) as [w' [new [Hrun [Hs [Hp [Hg [Ho [Hl [Hc [Hpg Hsl]]]]]]]]]]
    end.
    + lia.
    + intros i Hi. cbn [self n_post add_event advance].
      replace (S (n_post w) + i)%nat with (n_post w + S i)%nat by lia.
      apply Hretry. lia.
    + cbn [self n_post add_event advance].
      now replace (S (n_post w) + j)%nat with (n_post w + S j)%nat by lia.
    + cbn [self n_post n_get out_file log clock add_event advance] in *.
      exists w',
        (EvPost (base_url (self w) ++ url)%string (_auth_header (self w)) body
         :: EvSleep (backoff_factor (self w) * 2 ^ Z.of_nat attempt) :: new).
      rewrite Hrun.
      replace (S (n_post w) + j)%nat with (n_post w + S j)%nat by lia.
      split; [reflexivity|]. split; [exact Hs|]. split; [lia|].
      split; [exact Hg|]. split; [exact Ho|]. split.
      { rewrite Hl. rewrite <- !app_assoc. reflexivity. }
      split.
      { change (count_posts (?a :: ?b :: new)) with (S (count_posts new)).
        now rewrite Hc. }
      split.
      { cbn [posted_pagings]. rewrite Hpg. reflexivity. }
      cbn [sleeps]. rewrite Hsl. unfold backoffs.
      cbn [seq map]. rewrite Nat.add_0_r. f_equal.
      rewrite <- seq_shift, map_map. apply map_ext.
      intro i. now replace (S attempt + i)%nat with (attempt + S i)%nat by lia.
Qed.

Lemma post_raw_attempts_exhaust srv url body :
  forall k attempt w,
    (forall i, (i <= k)%nat ->
       retryable (self w) (post_wire srv (n_post w + i)) = true) ->
    exists w' new,
      post_raw_attempts srv k attempt url body w
      = (w', Raise (RetryError
                      ("too many "
                       ++ Py.str_int (status_code (post_wire srv (n_post w + k)))
                       ++ " error responses")%string))
      /\ self w' = self w
      /\ n_post w' = (n_post w + S k)%nat
      /\ log w' = log w ++ new
      /\ count_posts new = S k
      /\ sleeps new = backoffs (self w) attempt k.
Proof.
  induction k as [|k IH]; intros attempt w Hretry.
  - pose proof (Hretry 0%nat ltac:(lia)) as H0.
    rewrite Nat.add_0_r in H0. unfold retryable in H0.
    exists (after_post url body w),
           [EvPost (base_url (self w) ++ url)%string (_auth_header (self w)) body].
    cbn [post_raw_attempts]. rewrite H0, Nat.add_0_r.
    repeat split; simpl; lia.
  - pose proof (Hretry 0%nat ltac:(lia)) as H0.
    rewrite Nat.add_0_r in H0. unfold retryable in H0.
    cbn [post_raw_attempts]. rewrite H0.
    unfold bind, sleep_ms.
    match goal with
    | |- context [post_raw_attempts srv k (S attempt) url body ?w1] =>
        destruct (IH (S attempt) w1) as [w' [new [Hrun [Hs [Hp [Hl [Hc Hsl]]]]]]]
    end.
    + intros i Hi. cbn [self n_post add_event advance].
      replace (S (n_post w) + i)%nat with (n_post w + S i)%nat by lia.
      apply Hretry. lia.
    + cbn [self n_post n_get out_file log clock add_event advance] in *.
      exists w',
        (EvPost (base_url (self w) ++ url)%string (_auth_header (self w)) body
         :: EvSleep (backoff_factor (self w) * 2 ^ Z.of_nat attempt) :: new).
      rewrite Hrun.
      replace (S (n_post w) + k)%nat with (n_post w + S k)%nat by lia.
      split; [reflexivity|]. split; [exact Hs|]. split; [lia|].
      split.
      { rewrite Hl. rewrite <- !app_assoc. reflexivity. }
      split.
      { change (count_posts (?a :: ?b :: new)) with (S (count_posts new)).
        now rewrite Hc. }
      cbn [sleeps]. rewrite Hsl. unfold backoffs.
      cbn [seq map]. rewrite Nat.add_0_r. f_equal.
      rewrite <- seq_shift, map_map. apply map_ext.
      intro i. now replace (S attempt + i)%nat with (attempt + S i)%nat by lia.
Qed.

(** What [_submit_stats_report] does with a response that the transport
    hands over at once. *)
Lemma submit_once srv rf dims mets paging w :
  retryable (self w) (post_wire srv (n_post w)) = false ->
  _submit_stats_report srv rf dims mets paging w
  = (let response := post_wire srv (n_post w) in
     if status_code response >? 299 then
       raise (AdformClientError
                ("Failed to submit report. Operation failed with code "
                 ++ Py.str_int (status_code response)
                 ++ ". Reason: " ++ text response)%string)
     else
       operation_location <- lift (header response "Operation-Location") ;;
       operation_id <- lift (Py.index (Py.rsplit1 operation_location) 1) ;;
       location <- lift (header response "Location") ;;
       report_location_id <- lift (Py.index (Py.rsplit1 location) 1) ;;
       ret (operation_id, report_location_id))
      (after_post END_BUYER_STATS (submit_body rf dims mets paging) w).
Proof.
  intro Hr. unfold retryable in Hr.
  unfold _submit_stats_report. unfold bind at 1. unfold try_except.
  unfold post_raw. unfold bind at 1. unfold self_attr.
  destruct (max_retries (self w)); cbn [post_raw_attempts]; rewrite Hr;
    reflexivity.
Qed.

(** C5. When the response to the submission has a status of 300 or more
    that the transport does not retry, [_submit_stats_report] raises
    [AdformClientError] with a text that holds the status code and the body
    of the response, after exactly one request and without any sleep. *)
Theorem submit_rejected_at_once :
  forall srv rf dims mets paging w,
    let response := post_wire srv (n_post w) in
    300 <= status_code response ->
    retryable (self w) response = false ->
    _submit_stats_report srv rf dims mets paging w
    = (after_post END_BUYER_STATS (submit_body rf dims mets paging) w,
       Raise (AdformClientError
                ("Failed to submit report. Operation failed with code "
                 ++ Py.str_int (status_code response)
                 ++ ". Reason: " ++ text response)%string))
    /\ n_post (after_post END_BUYER_STATS (submit_body rf dims mets paging) w)
       = S (n_post w)
    /\ sleeps (log (after_post END_BUYER_STATS
                               (submit_body rf dims mets paging) w))
       = sleeps (log w)
    /\ count_posts (log (after_post END_BUYER_STATS
                                    (submit_body rf dims mets paging) w))
       = S (count_posts (log w)).
Proof.
  intros srv rf dims mets paging w response Hcode Hr.
  split; [|split; [reflexivity|split]].
  - rewrite submit_once by exact Hr. cbn zeta. fold response.
    replace (status_code response >? 299) with true; [reflexivity|].
    symmetry. apply Z.gtb_lt. lia.
  - cbn [after_post log]. rewrite sleeps_app. simpl. now rewrite app_nil_r.
  - cbn [after_post log]. unfold count_posts.
    rewrite filter_app, length_app. cbn [filter Datatypes.length]. lia.
Qed.

Lemma retryable_configured c r :
  configured c ->
  retryable c r = existsb (Z.eqb (status_code r)) [429; 500; 502; 504].
Proof. intros [_ [_ Hf]]. unfold retryable. now rewrite Hf. Qed.

Lemma retryable_in c r :
  configured c ->
  In (status_code r) [429; 500; 502; 504] -> retryable c r = true.
Proof.
  intros Hc Hin. rewrite (retryable_configured c r Hc).
  apply existsb_exists. exists (status_code r). split; [exact Hin|].
  apply Z.eqb_refl.
Qed.

Lemma retryable_not_in c r :
  configured c ->
  ~ In (status_code r) [429; 500; 502; 504] -> retryable c r = false.
Proof.
  intros Hc Hin. rewrite (retryable_configured c r Hc).
  destruct (existsb _ _) eqn:He; [|reflexivity].
  apply existsb_exists in He. destruct He as [x [Hx Heq]].
  apply Z.eqb_eq in Heq. subst x. contradiction.
Qed.

(** C4, amended. The client is configured with 10 retries, a backoff
    factor of 0.3 s and the retried statuses 429, 500, 502 and 504. When the
    first request and all 10 retries are answered with such a status, the
    submission raises [AdformServerError], whose text names error #429,
    after 11 requests and sleeps of 0.3 s doubled each time. A response of
    another status after [j <= 10] retried ones is handed over after
    [j + 1] requests. A 503 is not retried: the submission that receives it
    raises [AdformClientError] with code 503 after that one request. *)
Theorem transport_retry_ceiling :
  forall repr token,
    configured (AdformClient repr token)
    /\ (forall srv rf dims mets paging w,
          configured (self w) ->
          (forall i, (i <= 10)%nat ->
             In (status_code (post_wire srv (n_post w + i)))
                [429; 500; 502; 504]) ->
          exists w' new,
            _submit_stats_report srv rf dims mets paging w
            = (w', Raise (AdformServerError
                            (quota_hint ++ "too many "
                             ++ Py.str_int
                                  (status_code (post_wire srv (n_post w + 10)))
                             ++ " error responses")%string))
            /\ log w' = log w ++ new
            /\ count_posts new = 11%nat
            /\ sleeps new = [300; 600; 1200; 2400; 4800; 9600; 19200; 38400;
                             76800; 153600])
    /\ contains "#429" quota_hint = true
    /\ (forall srv url body w j,
          configured (self w) ->
          (j <= 10)%nat ->
          (forall i, (i < j)%nat ->
             In (status_code (post_wire srv (n_post w + i)))
                [429; 500; 502; 504]) ->
          ~ In (status_code (post_wire srv (n_post w + j)))
               [429; 500; 502; 504] ->
          exists w' new,
            post_raw srv url body w = (w', Ret (post_wire srv (n_post w + j)))
            /\ log w' = log w ++ new
            /\ count_posts new = S j
            /\ sleeps new = map (fun i => 300 * 2 ^ Z.of_nat i) (seq 0 j))
    /\ (forall srv rf dims mets paging w,
          configured (self w) ->
          status_code (post_wire srv (n_post w)) = 503 ->
          _submit_stats_report srv rf dims mets paging w
          = (after_post END_BUYER_STATS (submit_body rf dims mets paging) w,
             Raise (AdformClientError
                      ("Failed to submit report. Operation failed with code 503"
                       ++ ". Reason: " ++ text (post_wire srv (n_post w)))%string))).
Proof.
  intros repr token. split; [repeat split|]. split; [|split; [reflexivity|split]].
  - intros srv rf dims mets paging w Hc Hall.
    destruct (post_raw_attempts_exhaust srv END_BUYER_STATS
                (submit_body rf dims mets paging) 10 0 w)
      as [w' [new [Hrun [Hs [Hp [Hl [Hcnt Hsl]]]]]]].
    { intros i Hi. apply retryable_in; [exact Hc | apply Hall; exact Hi]. }
    exists w', new.
    split; [|split; [exact Hl|split; [exact Hcnt|]]].
    + unfold _submit_stats_report. unfold bind at 1. unfold try_except.
      unfold post_raw. unfold bind at 1. unfold self_attr.
      destruct Hc as [Hm _]. rewrite Hm. unfold MAX_RETRIES.
      rewrite Hrun. reflexivity.
    + rewrite Hsl. unfold backoffs. destruct Hc as [_ [Hb _]]. rewrite Hb.
      reflexivity.
  - intros srv url body w j Hc Hj Hretry Hlast.
    destruct (post_raw_attempts_recover srv url body j 10 0 w Hj)
      as [w' [new [Hrun [Hs [Hp [Hg [Ho [Hl [Hcnt [_ Hsl]]]]]]]]]].
    { intros i Hi. apply retryable_in; [exact Hc | apply Hretry; exact Hi]. }
    { apply retryable_not_in; [exact Hc | exact Hlast]. }
    exists w', new.
    split; [|split; [exact Hl|split; [exact Hcnt|]]].
    + unfold post_raw. unfold bind at 1. unfold self_attr.
      destruct Hc as [Hm _]. rewrite Hm. exact Hrun.
    + rewrite Hsl. unfold backoffs. destruct Hc as [_ [Hb _]]. rewrite Hb.
      reflexivity.
  - intros srv rf dims mets paging w Hc H503.
    rewrite submit_once.
    + cbn zeta. rewrite H503. reflexivity.
    + apply retryable_not_in; [exact Hc|]. rewrite H503. simpl.
      intros [H|[H|[H|[H|[]]]]]; discriminate.
Qed.

Lemma rsplit_slash_none s :
  Py.rsplit_slash s = None <-> has_slash s = false.
Proof.
  induction s as [|c s IH]; simpl; [tauto|].
  destruct (Py.rsplit_slash s) as [[a b]|].
  - split; [discriminate|]. intro H. apply orb_false_iff in H.
    destruct H as [_ H]. apply IH in H. discriminate.
  - destruct (Ascii.eqb c "/"); simpl.
    + split; discriminate.
    + split; [intros _; now apply IH | reflexivity].
Qed.

Lemma rsplit_slash_some s a b :
  Py.rsplit_slash s = Some (a, b) ->
  s = (a ++ "/" ++ b)%string /\ has_slash b = false.
Proof.
  revert a b. induction s as [|c s IH]; intros a b; simpl; [discriminate|].
  destruct (Py.rsplit_slash s) as [[a' b']|] eqn:Hs.
  - intro H. injection H as <- <-. destruct (IH a' b' eq_refl) as [-> Hb].
    split; [reflexivity | exact Hb].
  - destruct (Ascii.eqb c "/") eqn:Hc; [|discriminate].
    intro H. injection H as <- <-. apply Ascii.eqb_eq in Hc. subst c.
    split; [reflexivity|]. now apply rsplit_slash_none.
Qed.

Lemma rsplit_slash_app a b :
  has_slash b = false ->
  Py.rsplit_slash (a ++ "/" ++ b) = Some (a, b).
Proof.
  intro Hb. induction a as [|c a IH]; simpl in *.
  - apply rsplit_slash_none in Hb. rewrite Hb. reflexivity.
  - now rewrite IH.
Qed.

Lemma index_rsplit1 s x :
  Py.index (Py.rsplit1 s) 1 = inr x ->
  exists a, s = (a ++ "/" ++ x)%string /\ has_slash x = false.
Proof.
  unfold Py.rsplit1. destruct (Py.rsplit_slash s) as [[a b]|] eqn:Hs.
  - cbn. intro H. injection H as <-. exists a. now apply rsplit_slash_some.
  - cbn. discriminate.
Qed.

Lemma header_missing r name e :
  header r name = inl e -> e = KeyError (Py.lower name).
Proof.
  unfold header. destruct (find _ _); intro H; [discriminate|].
  now injection H as <-.
Qed.

Lemma not_classified_key_error {A} k : ~ classified (@Raise A (KeyError k)).
Proof. intros [msg [H|H]]; discriminate. Qed.

Lemma not_classified_index_error {A} : ~ classified (@Raise A IndexError).
Proof. intros [msg [H|H]]; discriminate. Qed.

(** C3, amended. When the response to the submission is not retried and
    has a status of at most 299, [_submit_stats_report] reads
    [Operation-Location] first: without that header it raises [KeyError]
    for it (the name in lower case); with the header but no slash in it, it
    raises [IndexError]; with the header and a slash in it, but without
    [Location], it raises [KeyError] for [location]. So a response that
    lacks one of the two headers ends in one of these three, none of which
    is [AdformClientError] or [AdformServerError], after the one request. *)
Theorem missing_header_raises_key_error :
  forall srv rf dims mets paging w,
    let response := post_wire srv (n_post w) in
    let o := snd (_submit_stats_report srv rf dims mets paging w) in
    retryable (self w) response = false ->
    status_code response <= 299 ->
    (has_header response "Operation-Location" = false ->
     o = Raise (KeyError "operation-location"))
    /\ (forall ol,
          header response "Operation-Location" = inr ol ->
          has_slash ol = false ->
          o = Raise IndexError)
    /\ (forall ol,
          header response "Operation-Location" = inr ol ->
          has_slash ol = true ->
          has_header response "Location" = false ->
          o = Raise (KeyError "location"))
    /\ (has_header response "Operation-Location"
        && has_header response "Location" = false ->
        (o = Raise (KeyError "operation-location")
         \/ o = Raise IndexError
         \/ o = Raise (KeyError "location"))
        /\ ~ classified o)
    /\ n_post (fst (_submit_stats_report srv rf dims mets paging w))
       = S (n_post w).
Proof.
  intros srv rf dims mets paging w response o Hr Hcode.
  subst o. rewrite submit_once by exact Hr. cbn zeta. fold response.
  replace (status_code response >? 299) with false
    by (symmetry; rewrite Z.gtb_ltb; apply Z.ltb_ge; lia).
  unfold has_header. unfold bind, lift, ret, raise.
  destruct (header response "Operation-Location") as [e|ol] eqn:Hol.
  - apply header_missing in Hol. subst e. cbn [snd fst].
    split; [reflexivity|]. split; [discriminate|]. split; [discriminate|].
    split; [|reflexivity]. intros _.
    split; [left; reflexivity | apply not_classified_key_error].
  - unfold Py.rsplit1.
    destruct (Py.rsplit_slash ol) as [[a b]|] eqn:Hsplit.
    + assert (Hslash : has_slash ol = true).
      { destruct (has_slash ol) eqn:Hs; [reflexivity|].
        apply rsplit_slash_none in Hs. congruence. }
      cbn [Py.index nth_error].
      destruct (header response "Location") as [e|l] eqn:Hl.
      * apply header_missing in Hl. subst e. cbn [snd fst].
        split; [discriminate|]. split.
        { intros ol' H Hs. injection H as <-. congruence. }
        split; [reflexivity|]. split; [|reflexivity]. intros _.
        split; [right; right; reflexivity | apply not_classified_key_error].
      * split; [discriminate|]. split.
        { intros ol' H Hs. injection H as <-. congruence. }
        split; [discriminate|]. split; [discriminate|].
        destruct (Py.index _ 1); reflexivity.
    + assert (Hslash : has_slash ol = false) by now apply rsplit_slash_none.
      cbn [Py.index nth_error snd fst].
      split; [discriminate|]. split; [reflexivity|]. split.
      { intros ol' H Hs. injection H as <-. congruence. }
      split; [|reflexivity]. intros _.
      split; [right; left; reflexivity | apply not_classified_index_error].
Qed.

(** ** The paginated fetcher *)

Lemma first_post_then B url body w w1 w2 :
  first_post url body w w1 ->
  appends (_auth_header (self w1)) B w1 w2 ->
  first_post url body w w2.
Proof.
  intros [tail Ht] [_ [new [Hl _]]]. exists (tail ++ new).
  rewrite Hl, Ht. rewrite <- app_assoc. reflexivity.
Qed.

Lemma first_post_attempts srv k attempt url body w :
  first_post url body w (fst (post_raw_attempts srv k attempt url body w)).
Proof.
  destruct k as [|k]; cbn [post_raw_attempts].
  - destruct (existsb _ _); exists []; reflexivity.
  - destruct (existsb _ _); [|exists []; reflexivity].
    match goal with
    | |- first_post _ _ _ (fst (bind ?c ?f ?w1)) =>
        pose proof (@keeps_bind _ _ (fun _ => True) c f
                      (keeps_sleep_ms _ _)
                      (fun _ => keeps_post_raw_attempts srv (fun _ => True)
                                  k (S attempt) url body I) w1) as H
    end.
    eapply first_post_then; [|exact H].
    exists []. reflexivity.
Qed.

Lemma first_post_bind {A C} B url body (c : M A) (k : A -> M C) :
  (forall w, first_post url body w (fst (c w))) ->
  (forall w, self (fst (c w)) = self w) ->
  (forall a, keeps B (k a)) ->
  forall w, first_post url body w (fst (bind c k w)).
Proof.
  intros Hc Hs Hk w. unfold bind.
  specialize (Hc w). specialize (Hs w).
  destruct (c w) as [w1 [a|e|]]; cbn [fst] in *; try exact Hc.
  eapply first_post_then; [exact Hc|]. apply Hk.
Qed.

Lemma first_post_submit srv rf dims mets paging w :
  first_post END_BUYER_STATS (submit_body rf dims mets paging) w
             (fst (_submit_stats_report srv rf dims mets paging w)).
Proof.
  unfold _submit_stats_report.
  apply (first_post_bind (fun _ => True)).
  - clear w. intro w. unfold try_except, post_raw, bind, self_attr.
    pose proof (first_post_attempts srv (max_retries (self w)) 0
                  END_BUYER_STATS (submit_body rf dims mets paging) w) as H.
    destruct (post_raw_attempts _ _ _ _ _ w) as [w1 [r|e|]]; cbn [fst] in *;
      try exact H.
    destruct e; exact H.
  - clear w. intro w.
    pose proof (keeps_try_except (fun _ => True)
                  (post_raw srv END_BUYER_STATS (submit_body rf dims mets paging))
                  (fun e =>
                     match e with
                     | RetryError e_str =>
                         Some (raise (AdformServerError
                           ("Client is unable to fetch data from server, "
                            ++ "please check your AdForm API quota limits in case of error #429"
                            ++ " the maximum allowed number of requests has been reached, error: "
                            ++ e_str)%string))
                     | _ => None
                     end)) as H.
    apply H.
    + now apply keeps_post_raw.
    + intros e k He. destruct e; try discriminate.
      injection He as <-. apply keeps_raise.
  - intro response. destruct (status_code response >? 299).
    + apply keeps_raise.
    + repeat (apply keeps_bind; [apply keeps_lift | intro]).
      apply keeps_ret.
Qed.

Lemma first_post_next repr srv fuel g w :
  has_more g = true ->
  first_post END_BUYER_STATS
             (submit_body (gen_filter g) (gen_dimensions g) (gen_metrics g)
                          (paging_of (offset g)))
             w (fst (next repr srv fuel g w)).
Proof.
  intro Hm. unfold next. rewrite Hm.
  apply (first_post_bind (fun _ => True)).
  - intro w0. apply first_post_submit.
  - intro w0. apply (keeps_submit srv (fun _ => True)). exact I.
  - intros [op loc].
    apply keeps_bind; [apply keeps_wait | intros _].
    apply keeps_bind; [apply keeps_get | intro res].
    apply keeps_bind; [apply keeps_lift | intro n].
    destruct (n >? 0).
    + apply keeps_bind; [apply keeps_lift | intro n']. apply keeps_ret.
    + apply keeps_ret.
Qed.

Lemma rows_len_nonneg res n : rows_len res = inr n -> 0 <= n.
Proof.
  unfold rows_len. destruct (Py.subscript _ _) as [e|rows]; [discriminate|].
  destruct rows; simpl; intro H; try discriminate; injection H as <-; lia.
Qed.

Lemma next_yield repr srv fuel g w w' res g' :
  next repr srv fuel g w = (w', Ret (Some (res, g'))) ->
  has_more g = true
  /\ exists n,
       rows_len res = inr n
       /\ g' = if n >? 0
               then mkGenerator (gen_filter g) (gen_dimensions g)
                                (gen_metrics g) true (n + offset g)
               else mkGenerator (gen_filter g) (gen_dimensions g)
                                (gen_metrics g) false (offset g).
Proof.
  unfold next. destruct (has_more g) eqn:Hm; [|discriminate].
  unfold bind.
  destruct (_submit_stats_report _ _ _ _ _ w) as [w1 [[op loc]|e|]];
    try discriminate.
  destruct (_wait_until_operation_finished _ _ _ _ w1) as [w2 [d|e|]];
    try discriminate.
  destruct (_get_report_result _ _ w2) as [w3 [page|e|]]; try discriminate.
  unfold lift. destruct (rows_len page) as [e|n] eqn:Hn; [discriminate|].
  unfold ret at 1. destruct (n >? 0) eqn:Hpos.
  - unfold ret. intro H. injection H as _ <- <-.
    split; [reflexivity|]. exists n. rewrite Hpos. now split.
  - unfold ret. intro H. injection H as _ <- <-.
    split; [reflexivity|]. exists n. rewrite Hpos. now split.
Qed.

Lemma first_post_drain repr srv turns fuel g w :
  has_more g = true ->
  first_post END_BUYER_STATS
             (submit_body (gen_filter g) (gen_dimensions g) (gen_metrics g)
                          (paging_of (offset g)))
             w (fst (drain repr srv (S turns) fuel g w)).
Proof.
  intro Hm. cbn [drain].
  apply (first_post_bind paged_body).
  - intro w0. now apply first_post_next.
  - intro w0. apply (keeps_next repr srv fuel g w0).
  - intros [[res g']|].
    + apply keeps_bind; [apply keeps_drain | intro rest]. apply keeps_ret.
    + apply keeps_ret.
Qed.

(** ** The submitted body *)

(** C8. The body that [_submit_stats_report] builds holds the fields
    dimensions, filter and metrics with the values given, and a paging field
    exactly when the paging argument is true as a condition (not [None], not
    empty), then with that value. The first thing a submission does is to
    post this body, and every request it makes carries it. Every turn of the
    paginated fetcher begins by posting the body whose paging is its offset
    with the limit 100000, the first turn with offset 0, and every request
    of the fetcher carries a body of the four fields with a paging of that
    limit. *)
Theorem submit_body_fields :
  forall repr srv rf dims mets paging turns fuel w,
    let body := submit_body rf dims mets paging in
    map fst body
    = ["dimensions"; "filter"; "metrics"]
      ++ (if Py.truthy paging then ["paging"] else [])
    /\ Py.lookup "dimensions" body = Some (PList dims)
    /\ Py.lookup "filter" body = Some (PDict rf)
    /\ Py.lookup "metrics" body = Some (PList mets)
    /\ Py.lookup "paging" body = (if Py.truthy paging then Some paging else None)
    /\ Py.lookup "paging" (submit_body rf dims mets PNone) = None
    /\ Py.lookup "paging" (submit_body rf dims mets (PDict [])) = None
    /\ (exists new,
          log (fst (_submit_stats_report srv rf dims mets paging w))
          = log w ++ new
          /\ Forall (event_ok (_auth_header (self w)) (eq body)) new)
    /\ (exists new,
          log (fst (drain repr srv turns fuel
                          (get_report_data_paginated rf dims mets) w))
          = log w ++ new
          /\ Forall (event_ok (_auth_header (self w)) paged_body) new)
    /\ DEFAULT_PAGING_LIMIT = 100000
    /\ (exists tail,
          log (fst (_submit_stats_report srv rf dims mets paging w))
          = log w ++ EvPost (base_url (self w) ++ END_BUYER_STATS)%string
                            (_auth_header (self w)) body :: tail)
    /\ (forall o w1,
          exists tail,
            log (fst (next repr srv fuel (mkGenerator rf dims mets true o) w1))
            = log w1
              ++ EvPost (base_url (self w1) ++ END_BUYER_STATS)%string
                        (_auth_header (self w1))
                        (submit_body rf dims mets
                           (PDict [("offset", PInt o);
                                   ("limit", PInt 100000)])) :: tail)
    /\ (exists tail,
          log (fst (drain repr srv (S turns) fuel
                          (get_report_data_paginated rf dims mets) w))
          = log w
            ++ EvPost (base_url (self w) ++ END_BUYER_STATS)%string
                      (_auth_header (self w))
                      (submit_body rf dims mets
                         (PDict [("offset", PInt 0);
                                 ("limit", PInt 100000)])) :: tail)
    /\ (forall o,
          Py.lookup "paging"
                    (submit_body rf dims mets
                       (PDict [("offset", PInt o); ("limit", PInt 100000)]))
          = Some (PDict [("offset", PInt o); ("limit", PInt 100000)])).
Proof.
  intros repr srv rf dims mets paging turns fuel w body. subst body.
  split; [unfold submit_body; destruct (Py.truthy paging); reflexivity|].
  split; [unfold submit_body; destruct (Py.truthy paging); reflexivity|].
  split; [unfold submit_body; destruct (Py.truthy paging); reflexivity|].
  split; [unfold submit_body; destruct (Py.truthy paging); reflexivity|].
  split; [unfold submit_body; destruct (Py.truthy paging); reflexivity|].
  split; [reflexivity|]. split; [reflexivity|].
  split.
  { apply (keeps_submit srv (eq (submit_body rf dims mets paging))
                        rf dims mets paging eq_refl w). }
  split.
  { apply (keeps_drain repr srv turns fuel
                       (get_report_data_paginated rf dims mets) w). }
  split; [reflexivity|].
  split; [exact (first_post_submit srv rf dims mets paging w)|].
  split.
  { intros o w1.
    exact (first_post_next repr srv fuel (mkGenerator rf dims mets true o) w1
                           eq_refl). }
  split.
  { exact (first_post_drain repr srv turns fuel
                            (get_report_data_paginated rf dims mets) w
                            eq_refl). }
  intro o. reflexivity.
Qed.

(** C6. When a turn of the generator that began at offset [k] yields a
    page of [r] rows: for [r > 0] the generator goes on with offset [k + r],
    and its next request is the submission with that offset; for [r = 0] it
    is over, and the next [next] stops without a request; a page of fewer
    rows than the limit, but more than none, does not end it. *)
Theorem offset_advances_by_row_count :
  forall repr srv fuel g w w' res g',
    next repr srv fuel g w = (w', Ret (Some (res, g'))) ->
    exists r,
      rows_len res = inr r
      /\ 0 <= r
      /\ (0 < r -> has_more g' = true /\ offset g' = offset g + r)
      /\ (0 < r ->
          forall fuel' w1,
            first_post END_BUYER_STATS
                       (submit_body (gen_filter g) (gen_dimensions g)
                                    (gen_metrics g) (paging_of (offset g + r)))
                       w1 (fst (next repr srv fuel' g' w1)))
      /\ (r = 0 ->
          has_more g' = false
          /\ forall fuel' w1, next repr srv fuel' g' w1 = (w1, Ret None))
      /\ (0 < r < DEFAULT_PAGING_LIMIT -> has_more g' = true).
Proof.
  intros repr srv fuel g w w' res g' Hnext.
  destruct (next_yield repr srv fuel g w w' res g' Hnext) as [Hm [n [Hn Hg]]].
  exists n. split; [exact Hn|]. split; [exact (rows_len_nonneg res n Hn)|].
  assert (Hpos : 0 < n -> (n >? 0) = true) by (intro; apply Z.gtb_lt; lia).
  split; [|split; [|split]].
  - intro H. rewrite (Hpos H) in Hg. subst g'. cbn. split; [reflexivity|lia].
  - intros H fuel' w1. rewrite (Hpos H) in Hg. subst g'.
    replace (offset g + n) with (n + offset g) by lia.
    apply (first_post_next repr srv fuel'
             (mkGenerator (gen_filter g) (gen_dimensions g) (gen_metrics g)
                          true (n + offset g)) w1).
    reflexivity.
  - intro H. subst n. cbn in Hg. subst g'. split; [reflexivity|].
    intros fuel' w1. reflexivity.
  - intros [H _]. rewrite (Hpos H) in Hg. subst g'. reflexivity.
Qed.

(** *** Against the mocked paged service *)

Lemma even_double i : Nat.even (2 * i) = true.
Proof. rewrite Nat.even_mul. reflexivity. Qed.

Lemma even_succ_double i : Nat.even (S (2 * i)) = false.
Proof. rewrite Nat.even_succ, Nat.odd_mul. reflexivity. Qed.

Lemma submit_paged cols pages rf dims mets paging w :
  configured (self w) ->
  _submit_stats_report (paged_server cols pages) rf dims mets paging w
  = (after_post END_BUYER_STATS (submit_body rf dims mets paging) w,
     Ret ("op-1", "loc-1")%string).
Proof.
  intro Hc. rewrite submit_once.
  - reflexivity.
  - apply retryable_not_in; [exact Hc|]. simpl.
    intros [H|[H|[H|[H|[]]]]]; discriminate.
Qed.

Lemma wait_paged repr cols pages fuel op w :
  Nat.even (n_get w) = true ->
  _wait_until_operation_finished repr (paged_server cols pages) (S fuel) op w
  = (after_poll (paged_server cols pages) op w, Ret (status_doc "succeeded")).
Proof.
  intro He. unfold _wait_until_operation_finished.
  unfold bind at 1. unfold time_time at 1. unfold bind at 1.
  rewrite polling_step. cbn [get_reply paged_server snd]. rewrite He.
  reflexivity.
Qed.

Lemma rows_len_page cols rows :
  rows_len (page_of cols rows) = inr (Z.of_nat (List.length rows)).
Proof. reflexivity. Qed.

Lemma has_rows_page cols rows :
  has_rows (page_of cols rows) = match rows with [] => false | _ => true end.
Proof.
  unfold has_rows. rewrite rows_len_page. destruct rows; reflexivity.
Qed.

Lemma next_paged repr cols pages i fuel g w :
  configured (self w) ->
  n_get w = (2 * i)%nat ->
  has_more g = true ->
  let rows := nth i pages [] in
  exists w',
    next repr (paged_server cols pages) (S fuel) g w
    = (w', Ret (Some (page_of cols rows,
                      match rows with
                      | [] => mkGenerator (gen_filter g) (gen_dimensions g)
                                          (gen_metrics g) false (offset g)
                      | _ => mkGenerator (gen_filter g) (gen_dimensions g)
                                         (gen_metrics g) true
                                         (Z.of_nat (List.length rows) + offset g)
                      end)))
    /\ self w' = self w
    /\ n_get w' = (2 * S i)%nat
    /\ n_post w' = S (n_post w)
    /\ posted_pagings (log w')
       = posted_pagings (log w) ++ [paging_of (offset g)].
Proof.
  intros Hc Hg Hm rows. unfold next. rewrite Hm.
  unfold bind at 1. rewrite submit_paged by exact Hc.
  unfold bind at 1. rewrite wait_paged
    by (cbn [n_get after_post]; rewrite Hg; apply even_double).
  unfold bind at 1. unfold _get_report_result, get.
  cbn [n_get after_poll after_post get_reply paged_server].
  rewrite Hg, even_succ_double, Nat.div2_succ_double. fold rows.
  unfold lift, bind. rewrite rows_len_page.
  clearbody rows.
  destruct rows as [|row rows']; (eexists; split; [reflexivity|]);
    (split; [reflexivity|]); (split; [cbn; lia|]); (split; [reflexivity|]);
    cbn [log advance add_event after_poll after_post];
    rewrite !posted_pagings_app; cbn; now rewrite !app_nil_r.
Qed.

Lemma drain_paged repr cols :
  forall pre done turns fuel g w,
    Forall (fun rows => rows <> []) pre ->
    (List.length pre + 2 <= turns)%nat ->
    configured (self w) ->
    n_get w = (2 * List.length done)%nat ->
    has_more g = true ->
    exists w',
      drain repr (paged_server cols (done ++ pre ++ [[]])) turns (S fuel) g w
      = (w', Ret (map (page_of cols) (pre ++ [[]])))
      /\ n_post w' = (n_post w + S (List.length pre))%nat
      /\ posted_pagings (log w')
         = posted_pagings (log w)
           ++ map paging_of
                  (running_sums (offset g)
                     (map (fun rows => Z.of_nat (List.length rows)) pre)).
Proof.
  induction pre as [|rows pre IH]; intros done turns fuel g w Hne Ht Hc Hg Hm.
  - destruct turns as [|[|turns]]; try (simpl in Ht; lia).
    destruct (next_paged repr cols (done ++ [] ++ [[]]) (List.length done)
                fuel g w Hc Hg Hm) as [w' [Hn [Hs [Hg' [Hp Hl]]]]].
    cbn [app] in Hn. rewrite nth_middle in Hn.
    exists w'. cbn [drain app]. unfold bind at 1. rewrite Hn.
    split; [reflexivity|]. split; [simpl; lia|]. exact Hl.
  - destruct turns as [|turns]; [simpl in Ht; lia|].
    destruct (next_paged repr cols (done ++ (rows :: pre) ++ [[]])
                (List.length done) fuel g w Hc Hg Hm)
      as [w1 [Hn [Hs [Hg' [Hp Hl]]]]].
    cbn [app] in Hn. rewrite nth_middle in Hn.
    inversion Hne as [|? ? Hrows Hrest]; subst.
    destruct rows as [|row rows]; [contradiction|].
    set (g1 := mkGenerator (gen_filter g) (gen_dimensions g) (gen_metrics g)
                 true (Z.of_nat (List.length (row :: rows)) + offset g)) in *.
    destruct (IH (done ++ [row :: rows]) turns fuel g1 w1 Hrest)
      as [w' [Hd [Hp' Hl']]].
    + simpl in Ht. lia.
    + rewrite Hs. exact Hc.
    + rewrite Hg', length_app. simpl. lia.
    + reflexivity.
    + exists w'. cbn [drain]. unfold bind at 1.
      replace (done ++ (row :: rows) :: pre ++ [[]])
        with ((done ++ [row :: rows]) ++ pre ++ [[]]) in Hn
        by (now rewrite <- app_assoc).
      replace (done ++ ((row :: rows) :: pre) ++ [[]])
        with ((done ++ [row :: rows]) ++ pre ++ [[]])
        by (now rewrite <- app_assoc).
      rewrite Hn. unfold bind at 1. rewrite Hd.
      split; [reflexivity|]. split; [rewrite Hp', Hp; simpl; lia|].
      rewrite Hl', Hl. rewrite <- app_assoc.
      cbn [map running_sums app].
      replace (offset g + Z.of_nat (List.length (row :: rows)))
        with (offset g1) by (subst g1; cbn [offset]; lia).
      reflexivity.
Qed.

Lemma filter_has_rows cols pre :
  Forall (fun rows => rows <> []) pre ->
  filter has_rows (map (page_of cols) (pre ++ [[]])) = map (page_of cols) pre.
Proof.
  induction pre as [|rows pre IH]; intro H; [reflexivity|].
  inversion H as [|? ? Hr Hrest]; subst.
  cbn [app map filter]. rewrite has_rows_page.
  destruct rows; [contradiction|]. now rewrite IH.
Qed.

(** C2. Against a mocked service that serves the pages [pre ++ [[]]], all
    of [pre] with rows, the drained generator yields all these pages in
    order; those with rows are exactly the pages of [pre], one fewer than
    the service serves, the page without rows coming last; and the paging
    windows submitted are those of the offsets 0, s1, s1 + s2, ..., one
    request per page. *)
Theorem fetch_all_emits_pages_at_running_offsets :
  forall repr cols pre rf dims mets turns fuel w,
    Forall (fun rows => rows <> []) pre ->
    (List.length pre + 2 <= turns)%nat ->
    configured (self w) ->
    n_get w = 0%nat ->
    let pages := pre ++ [[]] in
    let run := drain repr (paged_server cols pages) turns (S fuel)
                     (get_report_data_paginated rf dims mets) w in
    snd run = Ret (map (page_of cols) pages)
    /\ filter has_rows (map (page_of cols) pages) = map (page_of cols) pre
    /\ List.length (map (page_of cols) pre) = (List.length pages - 1)%nat
    /\ posted_pagings (log (fst run))
       = posted_pagings (log w)
         ++ map paging_of
                (running_sums 0
                   (map (fun rows => Z.of_nat (List.length rows)) pre))
    /\ n_post (fst run) = (n_post w + List.length pages)%nat.
Proof.
  intros repr cols pre rf dims mets turns fuel w Hne Ht Hc Hg pages run.
  destruct (drain_paged repr cols pre [] turns fuel
              (get_report_data_paginated rf dims mets) w Hne Ht Hc)
    as [w' [Hd [Hp Hl]]]; [rewrite Hg; reflexivity | reflexivity |].
  cbn [app] in Hd. subst run pages. rewrite Hd. cbn [fst snd].
  split; [reflexivity|]. split; [now apply filter_has_rows|].
  split; [rewrite length_map, length_app; simpl; lia|].
  split; [exact Hl|]. rewrite Hp, length_app. simpl. lia.
Qed.

(** C10. When the token endpoint answers with a document without
    [access_token], [login_using_client_credentials] returns without raising
    and leaves the credential header [Bearer None] in the client; the
    submissions, polls and fetches made afterwards carry that header. *)
Theorem login_without_token_installs_bearer_none :
  forall repr srv secrets client_id client_secret scope w,
    token_endpoint srv = inr secrets ->
    Py.mem "access_token" secrets = false ->
    exists w',
      login_using_client_credentials repr srv client_id client_secret scope w
      = (w', Ret tt)
      /\ _auth_header (self w') = [("Authorization", "Bearer None")%string]
      /\ (forall rf dims mets paging,
            exists tail,
              log (fst (_submit_stats_report srv rf dims mets paging w'))
              = log w'
                ++ EvPost (base_url (self w') ++ END_BUYER_STATS)%string
                          [("Authorization", "Bearer None")%string]
                          (submit_body rf dims mets paging) :: tail)
      /\ (forall turns fuel g,
            exists new,
              log (fst (drain repr srv turns fuel g w')) = log w' ++ new
              /\ Forall (event_ok [("Authorization", "Bearer None")%string]
                                  paged_body) new).
Proof.
  intros repr srv secrets client_id client_secret scope w Htok Hmem.
  unfold login_using_client_credentials, bind, post. rewrite Htok.
  unfold Py.mem in Hmem. unfold Py.get.
  destruct (Py.lookup "access_token" secrets); [discriminate|].
  cbn [Py.str]. unfold set_auth_header.
  eexists. split; [reflexivity|]. split; [reflexivity|]. split.
  - intros rf dims mets paging.
    match goal with
    | |- context [_submit_stats_report _ _ _ _ _ ?w1] =>
        exact (first_post_submit srv rf dims mets paging w1)
    end.
  - intros turns fuel g.
    match goal with
    | |- context [drain _ _ _ _ _ ?w1] =>
        exact (proj2 (keeps_drain repr srv turns fuel g w1))
    end.
Qed.

(** C9. [AdformClient] binds [get_report_data_paginated] but no
    [get_report_data]. When the base class and the instance provide none
    either, the fetch stage of [Component.run] raises [AttributeError],
    which none of its handlers takes: the run ends with exit status 2, and
    the world is as before (nothing submitted, nothing stored). *)
Theorem run_fetch_raises_attribute_error :
  forall inherited loop_found filter_def dims mets w,
    has_name "get_report_data" inherited = false ->
    run_fetch inherited loop_found filter_def dims mets w
    = (w, Raise (AttributeError "get_report_data"))
    /\ exit_status (snd (run_fetch inherited loop_found filter_def dims mets w))
       = Some 2
    /\ has_name "get_report_data" AdformClient_dict = false
    /\ has_name "get_report_data_paginated" AdformClient_dict = true.
Proof.
  intros inherited loop_found filter_def dims mets w Hno.
  assert (Hrun : run_fetch inherited loop_found filter_def dims mets w
                 = (w, Raise (AttributeError "get_report_data"))).
  { unfold run_fetch, bind, try_except, lift, getattr.
    change (has_name "get_report_data" AdformClient_dict) with false.
    cbn iota. rewrite Hno. reflexivity. }
  rewrite Hrun. repeat split.
Qed.

(** ** The statements at concrete services *)

Lemma anomaly_fails_terminal_status_witness :
  _wait_until_operation_finished
    no_repr (anomalous_then 1 (status_doc "succeeded")) 2 "op-1" example_world
  = (after_polls (anomalous_then 1 (status_doc "succeeded")) "op-1" 2
                 example_world,
     Raise (AdformClientError (unparsed no_repr (status_doc "succeeded")))).
Proof.
  apply (anomaly_fails_terminal_status
           no_repr (anomalous_then 1 (status_doc "succeeded")) "op-1"
           example_world 1 0 [] (status_doc "succeeded")).
  - constructor.
  - reflexivity.
  - reflexivity.
  - intros i Hi. exists []. split; [|reflexivity].
    destruct i as [|i]; [reflexivity | lia].
  - reflexivity.
  - reflexivity.
  - vm_compute. reflexivity.
  - constructor.
Defined.


Lemma submit_rejected_at_once_witness :
  _submit_stats_report (status_script [400] "bad request") [] [] [] PNone
                       example_world
  = (after_post END_BUYER_STATS (submit_body [] [] [] PNone) example_world,
     Raise (AdformClientError
              "Failed to submit report. Operation failed with code 400. Reason: bad request")).
Proof.
  apply (submit_rejected_at_once (status_script [400] "bad request")
                                 [] [] [] PNone example_world).
  - vm_compute. discriminate.
  - reflexivity.
Defined.

Lemma missing_header_witness :
  snd (_submit_stats_report headerless [] [] [] PNone example_world)
  = Raise (KeyError "operation-location").
Proof.
  apply (missing_header_raises_key_error headerless [] [] [] PNone
                                         example_world).
  - reflexivity.
  - vm_compute. discriminate.
  - reflexivity.
Defined.

Lemma missing_header_is_unclassified :
  has_header (post_wire headerless 0) "Operation-Location" = false
  /\ has_header (post_wire headerless 0) "Location" = false
  /\ snd (_submit_stats_report headerless [] [] [] PNone example_world)
     = Raise (KeyError "operation-location")
  /\ ~ classified
        (snd (_submit_stats_report headerless [] [] [] PNone example_world)).
Proof.
  split; [reflexivity|]. split; [reflexivity|]. split; [reflexivity|].
  apply not_classified_key_error.
Qed.

Lemma submit_body_fields_witness :
  exists tail,
    log (fst (drain no_repr (paged_server [] []) 1 1
                    (get_report_data_paginated [] [] []) example_world))
    = log example_world
      ++ EvPost (base_url (self example_world) ++ END_BUYER_STATS)%string
                (_auth_header (self example_world))
                (submit_body [] [] []
                   (PDict [("offset", PInt 0); ("limit", PInt 100000)]))
         :: tail.
Proof.
  destruct (submit_body_fields no_repr (paged_server [] []) [] [] [] PNone
                               0 1 example_world)
    as (_ & _ & _ & _ & _ & _ & _ & _ & _ & _ & _ & _ & H & _).
  exact H.
Defined.

Lemma unavailable_once_is_not_retried :
  snd (_submit_stats_report (status_script [503; 200] "busy") [] [] [] PNone
                            example_world)
  = Raise (AdformClientError
             "Failed to submit report. Operation failed with code 503. Reason: busy")
  /\ n_post (fst (_submit_stats_report (status_script [503; 200] "busy")
                                       [] [] [] PNone example_world)) = 1%nat
  /\ ~ (exists ids,
          snd (_submit_stats_report (status_script [503; 200] "busy")
                                    [] [] [] PNone example_world) = Ret ids).
Proof.
  split; [reflexivity|]. split; [reflexivity|].
  intros [ids H]. discriminate H.
Qed.

Lemma fetch_all_witness :
  let cols := [PStr "date"; PStr "impressions"] in
  let pre := [[PList [PStr "d1"; PInt 5]; PList [PStr "d2"; PInt 7];
               PList [PStr "d3"; PInt 1]];
              [PList [PStr "d4"; PInt 2]]] in
  let run := drain no_repr (paged_server cols (pre ++ [[]])) 4 1
                   (get_report_data_paginated [] [] []) example_world in
  snd run = Ret (map (page_of cols) (pre ++ [[]]))
  /\ filter has_rows (map (page_of cols) (pre ++ [[]])) = map (page_of cols) pre
  /\ List.length (map (page_of cols) pre) = (List.length (pre ++ [[]]) - 1)%nat
  /\ posted_pagings (log (fst run))
     = posted_pagings (log example_world)
       ++ map paging_of
              (running_sums 0 (map (fun rows => Z.of_nat (List.length rows)) pre))
  /\ n_post (fst run) = (n_post example_world + List.length (pre ++ [[]]))%nat.
Proof.
  intros cols pre.
  apply (fetch_all_emits_pages_at_running_offsets
           no_repr cols pre [] [] [] 4 0 example_world).
  - repeat constructor; discriminate.
  - repeat constructor.
  - repeat split.
  - reflexivity.
Defined.

Lemma transport_retry_ceiling_witness :
  exists w' new,
    _submit_stats_report (status_script (repeat 429 11) "slow down")
                         [] [] [] PNone example_world
    = (w', Raise (AdformServerError
                    (quota_hint ++ "too many "
                     ++ Py.str_int
                          (status_code
                             (post_wire (status_script (repeat 429 11) "slow down")
                                        (n_post example_world + 10)))
                     ++ " error responses")%string))
    /\ log w' = log example_world ++ new
    /\ count_posts new = 11%nat
    /\ sleeps new = [300; 600; 1200; 2400; 4800; 9600; 19200; 38400;
                     76800; 153600].
Proof.
  destruct (transport_retry_ceiling no_repr (PStr "token")) as [_ [H _]].
  apply H.
  - repeat split.
  - intros i Hi.
    do 11 (destruct i as [|i]; [left; reflexivity|]). lia.
Defined.

Lemma offset_advances_witness :
  let cols := [PStr "date"] in
  let rows := [PList [PStr "d1"]; PList [PStr "d2"]; PList [PStr "d3"]] in
  let g := get_report_data_paginated [] [] [] in
  let g' := mkGenerator [] [] [] true 3 in
  let srv := paged_server cols [rows] in
  exists r,
    rows_len (page_of cols rows) = inr r
    /\ 0 <= r
    /\ (0 < r -> has_more g' = true /\ offset g' = offset g + r)
    /\ (0 < r ->
        forall fuel' w1,
          first_post END_BUYER_STATS
                     (submit_body (gen_filter g) (gen_dimensions g)
                                  (gen_metrics g) (paging_of (offset g + r)))
                     w1 (fst (next no_repr srv fuel' g' w1)))
    /\ (r = 0 ->
        has_more g' = false
        /\ forall fuel' w1, next no_repr srv fuel' g' w1 = (w1, Ret None))
    /\ (0 < r < DEFAULT_PAGING_LIMIT -> has_more g' = true).
Proof.
  intros cols rows g g' srv.
  eapply (offset_advances_by_row_count no_repr srv 1 g example_world).
  vm_compute. reflexivity.
Defined.

Lemma run_fetch_witness :
  run_fetch ["base_url"; "_auth_header"; "get"; "post"; "post_raw"]
            (fun _ _ _ _ => ret tt) [] [] [] example_world
  = (example_world, Raise (AttributeError "get_report_data")).
Proof.
  apply (run_fetch_raises_attribute_error
           ["base_url"; "_auth_header"; "get"; "post"; "post_raw"]
           (fun _ _ _ _ => ret tt) [] [] [] example_world).
  reflexivity.
Defined.

Lemma login_without_token_witness :
  let srv := token_server [("token_type", PStr "Bearer")] in
  exists w',
    login_using_client_credentials no_repr srv "id" "secret" default_scope
                                   example_world
    = (w', Ret tt)
    /\ _auth_header (self w') = [("Authorization", "Bearer None")%string]
    /\ (forall rf dims mets paging,
          exists tail,
            log (fst (_submit_stats_report srv rf dims mets paging w'))
            = log w'
              ++ EvPost (base_url (self w') ++ END_BUYER_STATS)%string
                        [("Authorization", "Bearer None")%string]
                        (submit_body rf dims mets paging) :: tail)
    /\ (forall turns fuel g,
          exists new,
            log (fst (drain no_repr srv turns fuel g w')) = log w' ++ new
            /\ Forall (event_ok [("Authorization", "Bearer None")%string]
                                paged_body) new).
Proof.
  intro srv.
  apply (login_without_token_installs_bearer_none
           no_repr srv [("token_type", PStr "Bearer")] "id" "secret"
           default_scope example_world).
  - reflexivity.
  - reflexivity.
Defined.

(** ** The handles of a submission *)

(** X1. When the response to the submission is not retried, has a status of
    at most 299, and its two location headers end in a slash followed by a
    text without slashes, [_submit_stats_report] returns these two trailing
    texts, after one request. *)
Theorem submit_returns_trailing_segments :
  forall srv rf dims mets paging w a1 id1 a2 id2,
    let response := post_wire srv (n_post w) in
    retryable (self w) response = false ->
    status_code response <= 299 ->
    header response "Operation-Location" = inr (a1 ++ "/" ++ id1)%string ->
    has_slash id1 = false ->
    header response "Location" = inr (a2 ++ "/" ++ id2)%string ->
    has_slash id2 = false ->
    _submit_stats_report srv rf dims mets paging w
    = (after_post END_BUYER_STATS (submit_body rf dims mets paging) w,
       Ret (id1, id2)).
Proof.
  intros srv rf dims mets paging w a1 id1 a2 id2 response Hr Hc H1 Hs1 H2 Hs2.
  rewrite submit_once by exact Hr. cbn zeta. fold response.
  replace (status_code response >? 299) with false
    by (symmetry; rewrite Z.gtb_ltb; apply Z.ltb_ge; lia).
  unfold bind, lift. rewrite H1. unfold ret at 1.
  unfold Py.rsplit1. rewrite (rsplit_slash_app a1 id1 Hs1). cbn [Py.index nth_error].
  unfold ret at 1. rewrite H2. unfold ret at 1.
  rewrite (rsplit_slash_app a2 id2 Hs2). reflexivity.
Qed.

Lemma post_raw_attempts_returns srv url body :
  forall k attempt w w' r,
    post_raw_attempts srv k attempt url body w = (w', Ret r) ->
    r = post_wire srv (Nat.pred (n_post w')) /\ (n_post w < n_post w')%nat.
Proof.
  induction k as [|k IH]; intros attempt w w' r; cbn [post_raw_attempts].
  - destruct (existsb _ _); [discriminate|].
    intro H. injection H as <- <-. cbn. split; [reflexivity | lia].
  - destruct (existsb _ _).
    + unfold bind, sleep_ms. intro H. apply IH in H.
      cbn [n_post advance add_event] in H. split; [tauto | lia].
    + intro H. injection H as <- <-. cbn. split; [reflexivity | lia].
Qed.

Lemma submit_response srv url body h w w' r :
  (forall e k, h e = Some k -> forall w0, exists e', k w0 = (w0, @Raise Response e')) ->
  try_except (post_raw srv url body) h w = (w', Ret r) ->
  r = post_wire srv (Nat.pred (n_post w')) /\ (n_post w < n_post w')%nat.
Proof.
  intros Hh. unfold try_except, post_raw, bind, self_attr.
  destruct (post_raw_attempts srv (max_retries (self w)) 0 url body w)
    as [w1 [r1|e|]] eqn:Hp; try discriminate.
  - intro H. injection H as <- <-.
    exact (post_raw_attempts_returns srv url body _ _ _ _ _ Hp).
  - destruct (h e) as [k|] eqn:He; [|discriminate].
    destruct (Hh e k He w1) as [e' ->]. discriminate.
Qed.

(** X2. Whenever [_submit_stats_report] returns, the last response that
    the service gave to its requests has a status of at most 299, and each
    handle returned is what follows the last slash of its header in that
    response: the header is some text, a slash and the handle, and the
    handle has no slash in it. *)
Theorem submitted_handles_have_no_slash :
  forall srv rf dims mets paging w w' operation_id report_location_id,
    _submit_stats_report srv rf dims mets paging w
    = (w', Ret (operation_id, report_location_id)) ->
    let response := post_wire srv (Nat.pred (n_post w')) in
    (n_post w < n_post w')%nat
    /\ status_code response <= 299
    /\ has_slash operation_id = false
    /\ has_slash report_location_id = false
    /\ exists a1 a2,
         header response "Operation-Location"
         = inr (a1 ++ "/" ++ operation_id)%string
         /\ header response "Location"
            = inr (a2 ++ "/" ++ report_location_id)%string.
Proof.
  intros srv rf dims mets paging w w' op loc.
  unfold _submit_stats_report. unfold bind at 1.
  destruct (try_except _ _ w) as [w1 [response|e|]] eqn:Htry;
    try discriminate.
  apply submit_response in Htry.
  2:{ intros e k He w0. destruct e; try discriminate.
      injection He as <-. eexists. reflexivity. }
  destruct Htry as [Hresp Hlt].
  destruct (status_code response >? 299) eqn:Hc; [discriminate|].
  unfold bind, lift.
  destruct (header response "Operation-Location") as [e|ol] eqn:Hol;
    [discriminate|]. unfold ret at 1.
  destruct (Py.index (Py.rsplit1 ol) 1) as [e|op'] eqn:Hop; [discriminate|].
  unfold ret at 1.
  destruct (header response "Location") as [e|l] eqn:Hl; [discriminate|].
  unfold ret at 1.
  destruct (Py.index (Py.rsplit1 l) 1) as [e|loc'] eqn:Hloc; [discriminate|].
  unfold ret. intro H. injection H as <- <- <-.
  destruct (index_rsplit1 ol op' Hop) as [a1 [-> Hs1]].
  destruct (index_rsplit1 l loc' Hloc) as [a2 [-> Hs2]].
  cbn zeta. rewrite <- Hresp.
  split; [exact Hlt|]. split.
  { rewrite Z.gtb_ltb in Hc. apply Z.ltb_ge in Hc. lia. }
  split; [exact Hs1|]. split; [exact Hs2|].
  exists a1, a2. split; assumption.
Qed.

(** ** More of the polling loop *)

Lemma anomaly_among_none srv k0 n :
  (forall i, (i < n)%nat ->
     exists d, snd (get_reply srv (k0 + i)) = inr d
               /\ Py.mem "status" d = true) ->
  anomaly_among srv k0 n = false.
Proof.
  revert k0. induction n as [|n IH]; intros k0 H; [reflexivity|].
  cbn [anomaly_among].
  destruct (H 0%nat ltac:(lia)) as [d [Hd Hm]].
  rewrite Nat.add_0_r in Hd. rewrite Hd, Hm. cbn [negb orb].
  apply IH. intros i Hi. destruct (H (S i) ltac:(lia)) as [d' [Hd' Hm']].
  exists d'. split; [|exact Hm'].
  now replace (S k0 + i)%nat with (k0 + S i)%nat by lia.
Qed.

Lemma with_status_stays d elapsed :
  Py.mem "status" d = true -> terminal d = false ->
  leaves_loop d elapsed = false.
Proof.
  intros Hm Ht. unfold leaves_loop. now rewrite Hm, Ht.
Qed.

Lemma subscript_status d :
  Py.mem "status" d = true ->
  Py.subscript (PDict d) "status" = inr (Py.get d "status").
Proof.
  unfold Py.mem, Py.subscript, Py.get.
  destruct (Py.lookup "status" d); [reflexivity | discriminate].
Qed.

(** X3. While every answer has a status field that is neither [succeeded]
    nor [failed], the poller never returns nor raises: whatever the fuel, it
    is used up by that many polls, however much time has passed. The 60
    seconds bound only answers without a status. *)
Theorem poller_never_gives_up_on_a_pending_status :
  forall repr srv op w,
    (forall k, exists d, snd (get_reply srv k) = inr d
                         /\ Py.mem "status" d = true
                         /\ terminal d = false) ->
    forall fuel,
      _wait_until_operation_finished repr srv fuel op w
      = (after_polls srv op fuel w, OutOfFuel)
      /\ n_get (after_polls srv op fuel w) = (n_get w + fuel)%nat
      /\ seconds DEFAULT_WAIT_INTERVAL * Z.of_nat fuel
         <= clock (after_polls srv op fuel w) - clock w.
Proof.
  intros repr srv op w Hall fuel. split; [|split].
  - unfold _wait_until_operation_finished.
    unfold bind at 1. unfold time_time at 1. unfold bind at 1.
    replace fuel with (fuel + 0)%nat at 1 by lia.
    rewrite polling_run; [reflexivity|].
    intros i Hi. destruct (Hall (n_get w + i)%nat) as [d [Hd [Hm Ht]]].
    exists d. split; [exact Hd|]. now apply with_status_stays.
  - apply after_polls_n_get.
  - rewrite after_polls_clock.
    pose proof (poll_time_lower srv (n_get w) (clock w) fuel). lia.
Qed.

(** X4. When the answers before the [n + 1]-th all have a status that is
    not terminal and the [n + 1]-th has a terminal one, the poller stops
    there, whatever time has passed: it returns that answer, or, when the
    status is [failed], raises [AdformClientError] with the text that names
    the operation. *)
Theorem poller_ends_on_terminal_status :
  forall repr srv op w n res,
    (forall i, (i < n)%nat ->
       exists d, snd (get_reply srv (n_get w + i)) = inr d
                 /\ Py.mem "status" d = true
                 /\ terminal d = false) ->
    snd (get_reply srv (n_get w + n)) = inr res ->
    terminal res = true ->
    forall fuel, (n < fuel)%nat ->
      _wait_until_operation_finished repr srv fuel op w
      = (after_polls srv op (S n) w,
         if Py.eq_str (Py.get res "status") "failed"
         then Raise (AdformClientError (job_failed op))
         else Ret res).
Proof.
  intros repr srv op w n res Hclean Hres Hterm fuel Hf.
  assert (Hm : Py.mem "status" res = true).
  { unfold terminal in Hterm. apply andb_true_iff in Hterm. tauto. }
  unfold _wait_until_operation_finished.
  unfold bind at 1. unfold time_time at 1. unfold bind at 1.
  replace fuel with (n + S (fuel - S n))%nat by lia.
  rewrite polling_run.
  - rewrite polling_step. rewrite after_polls_n_get, Hres. cbn zeta.
    unfold leaves_loop. rewrite Hterm. cbn [orb].
    rewrite anomaly_among_none.
    + rewrite Hm. cbn [negb orb]. rewrite <- after_polls_succ.
      unfold bind, lift. rewrite (subscript_status res Hm). unfold ret at 1.
      destruct (Py.eq_str (Py.get res "status") "failed"); reflexivity.
    + intros i Hi. destruct (Hclean i Hi) as [d [Hd [Hmd _]]].
      exists d. now split.
  - intros i Hi. destruct (Hclean i Hi) as [d [Hd [Hmd Htd]]].
    exists d. split; [exact Hd|]. now apply with_status_stays.
Qed.

(** X5. When a status query raises, after polls that did not end the loop,
    the poller raises that same exception, also when earlier answers had no
    status. *)
Theorem poller_lets_transport_errors_through :
  forall repr srv op w n e,
    (forall i, (i < n)%nat ->
       exists d, snd (get_reply srv (n_get w + i)) = inr d
                 /\ leaves_loop d (poll_time srv (n_get w) (clock w) (S i)
                                   - clock w) = false) ->
    snd (get_reply srv (n_get w + n)) = inl e ->
    forall fuel, (n < fuel)%nat ->
      _wait_until_operation_finished repr srv fuel op w
      = (after_polls srv op (S n) w, Raise e).
Proof.
  intros repr srv op w n e Hstay He fuel Hf.
  unfold _wait_until_operation_finished.
  unfold bind at 1. unfold time_time at 1. unfold bind at 1.
  replace fuel with (n + S (fuel - S n))%nat by lia.
  rewrite polling_run.
  - rewrite polling_step. rewrite after_polls_n_get, He.
    rewrite <- after_polls_succ. reflexivity.
  - intros i Hi. destruct (Hstay i Hi) as [d [Hd Hl]].
    exists d. split; [exact Hd|]. rewrite after_polls_clock. exact Hl.
Qed.

(** ** More of the paginated fetcher *)

(** X6. Whatever the service answers, the pages of a generator that was
    drained to its end are pages with rows followed by exactly one page
    without rows, which is yielded too. *)
Theorem drained_pages_end_with_the_empty_page :
  forall repr srv turns fuel g w w' pages,
    has_more g = true ->
    drain repr srv turns fuel g w = (w', Ret pages) ->
    exists init last,
      pages = init ++ [last]
      /\ Forall (fun page => has_rows page = true) init
      /\ rows_len last = inr 0.
Proof.
  intros repr srv turns fuel.
  induction turns as [|turns IH]; intros g w w' pages Hm; [discriminate|].
  cbn [drain]. unfold bind at 1.
  destruct (next repr srv fuel g w) as [w1 [[[res g']|]|e|]] eqn:Hn;
    try discriminate.
  - destruct (next_yield repr srv fuel g w w1 res g' Hn) as [_ [n [Hlen Hg']]].
    unfold bind at 1.
    destruct (drain repr srv turns fuel g' w1) as [w2 [rest|e|]] eqn:Hd;
      try discriminate.
    unfold ret. intro H. injection H as _ <-.
    destruct (n >? 0) eqn:Hpos.
    + destruct (IH g' w1 w2 rest) as [init [last [-> [Hinit Hlast]]]].
      * subst g'. reflexivity.
      * exact Hd.
      * exists (res :: init), last. split; [reflexivity|].
        split; [|exact Hlast]. constructor; [|exact Hinit].
        unfold has_rows. now rewrite Hlen.
    + subst g'. destruct turns as [|turns]; [discriminate|].
      cbn in Hd. injection Hd as _ <-.
      exists [], res. split; [reflexivity|]. split; [constructor|].
      pose proof (rows_len_nonneg res n Hlen).
      rewrite Z.gtb_ltb in Hpos. apply Z.ltb_ge in Hpos.
      replace n with 0 in Hlen by lia. exact Hlen.
  - unfold next in Hn. rewrite Hm in Hn. unfold bind in Hn.
    destruct (_submit_stats_report _ _ _ _ _ w) as [wa [[op loc]|e|]];
      try discriminate.
    destruct (_wait_until_operation_finished _ _ _ _ wa) as [wb [d|e|]];
      try discriminate.
    destruct (_get_report_result _ _ wb) as [wc [page|e|]]; try discriminate.
    unfold lift in Hn. destruct (rows_len page) as [e|n]; [discriminate|].
    unfold ret at 1 in Hn. destruct (n >? 0); discriminate.
Qed.

(** X7. When the fetched document has no [reportData], or its [reportData]
    has no [rows] or a null [rows], the turn of the generator raises
    [TypeError], [KeyError] for [rows], or [TypeError], after the submission,
    the polling and the fetch were made. *)
Theorem page_without_rows_ends_the_generator :
  forall repr srv fuel g w w1 w2 w3 operation_id report_location_id st page,
    has_more g = true ->
    _submit_stats_report srv (gen_filter g) (gen_dimensions g) (gen_metrics g)
                         (paging_of (offset g)) w
    = (w1, Ret (operation_id, report_location_id)) ->
    _wait_until_operation_finished repr srv fuel operation_id w1
    = (w2, Ret st) ->
    _get_report_result srv report_location_id w2 = (w3, Ret page) ->
    (Py.lookup "reportData" page = None ->
     next repr srv fuel g w = (w3, Raise TypeError))
    /\ (forall rd,
          Py.lookup "reportData" page = Some (PDict rd) ->
          Py.lookup "rows" rd = None ->
          next repr srv fuel g w = (w3, Raise (KeyError "rows")))
    /\ (forall rd,
          Py.lookup "reportData" page = Some (PDict rd) ->
          Py.lookup "rows" rd = Some PNone ->
          next repr srv fuel g w = (w3, Raise TypeError)).
Proof.
  intros repr srv fuel g w w1 w2 w3 op loc st page Hm Hs Hw Hg.
  assert (Hnext : next repr srv fuel g w
                  = bind (lift (rows_len page))
                      (fun n =>
                         if n >? 0 then
                           bind (lift (rows_len page))
                             (fun n' =>
                                ret (Some (page,
                                  mkGenerator (gen_filter g) (gen_dimensions g)
                                    (gen_metrics g) (has_more g)
                                    (n' + offset g))))
                         else
                           ret (Some (page,
                             mkGenerator (gen_filter g) (gen_dimensions g)
                               (gen_metrics g) false (offset g)))) w3).
  { unfold next. rewrite Hm. unfold bind at 1. unfold paging_of in Hs.
    rewrite Hs. unfold bind at 1. rewrite Hw. unfold bind at 1. rewrite Hg.
    reflexivity. }
  rewrite Hnext. unfold rows_len, Py.get, Py.subscript.
  split; [|split].
  - intros ->. reflexivity.
  - intros rd -> ->. reflexivity.
  - intros rd -> ->. reflexivity.
Qed.

(** ** The credential *)


(** ** The result file *)

Lemma writerows_all rows :
  Forall (fun row => iterable row = true) rows ->
  forall w old,
    out_file w = Some old ->
    snd (writerows rows w) = Ret tt
    /\ out_file (fst (writerows rows w)) = Some (old ++ rows)
    /\ log (fst (writerows rows w)) = log w.
Proof.
  induction 1 as [|row rows Hrow _ IH]; intros w old Hold.
  - cbn. now rewrite app_nil_r.
  - cbn [writerows]. unfold bind, writerow. unfold iterable in Hrow.
    destruct (Py.iter row) as [e|items]; [discriminate|].
    rewrite Hold.
    match goal with
    | |- context [writerows rows ?w1] =>
        destruct (IH w1 (old ++ [row]) eq_refl) as [H1 [H2 H3]]
    end.
    rewrite H1, H2, H3. rewrite <- app_assoc. repeat split.
Qed.

Lemma store_results_page cols rows w :
  Forall (fun row => iterable row = true) rows ->
  snd (store_results (page_of cols rows) w) = Ret tt
  /\ out_file (fst (store_results (page_of cols rows) w))
     = Some (match out_file w with
             | None => [PList cols]
             | Some old => old
             end ++ rows)
  /\ log (fst (store_results (page_of cols rows) w)) = log w.
Proof.
  intro Hrows. unfold store_results, bind, lift, ret, open_out, writerow.
  cbn [page_of Py.subscript Py.lookup String.eqb Ascii.eqb Bool.eqb Py.iter].
  destruct (out_file w) as [old|] eqn:Hold; cbn [out_file].
  - match goal with
    | |- context [writerows rows ?w1] =>
        destruct (writerows_all rows Hrows w1 old eq_refl) as [H1 [H2 H3]];
        destruct (writerows rows w1) as [w2 o]
    end.
    cbn [fst snd] in *. subst o. cbn [fst snd]. repeat split; assumption.
  - match goal with
    | |- context [writerows rows ?w1] =>
        destruct (writerows_all rows Hrows w1 [PList cols] eq_refl)
          as [H1 [H2 H3]];
        destruct (writerows rows w1) as [w2 o]
    end.
    cbn [fst snd] in *. subst o. cbn [fst snd]. repeat split; assumption.
Qed.

Lemma store_each_existing cols rowss :
  Forall (Forall (fun row => iterable row = true)) rowss ->
  forall w old,
    out_file w = Some old ->
    snd (store_each (map (page_of cols) rowss) w) = Ret tt
    /\ out_file (fst (store_each (map (page_of cols) rowss) w))
       = Some (old ++ List.concat rowss)
    /\ log (fst (store_each (map (page_of cols) rowss) w)) = log w.
Proof.
  induction 1 as [|rows rowss Hrows _ IH]; intros w old Hold.
  - cbn. now rewrite app_nil_r.
  - cbn [map store_each List.concat]. unfold bind.
    destruct (store_results_page cols rows w Hrows) as [H1 [H2 H3]].
    destruct (store_results (page_of cols rows) w) as [w1 o].
    cbn [fst snd] in *. subst o. rewrite Hold in H2.
    destruct (IH w1 (old ++ rows) H2) as [H4 [H5 H6]].
    rewrite H4, H5, H6, H3. rewrite <- app_assoc. repeat split.
Qed.

(** X9. Storing one page after another, each of rows that can be written,
    leaves a file of the rows of all pages in order, after the column
    headers when there was no file, or after what the file held. *)
Theorem stored_pages_share_one_header :
  forall cols rows rowss w,
    Forall (Forall (fun row => iterable row = true)) (rows :: rowss) ->
    let run := store_each (map (page_of cols) (rows :: rowss)) w in
    snd run = Ret tt
    /\ out_file (fst run)
       = Some (match out_file w with
               | None => [PList cols]
               | Some old => old
               end ++ List.concat (rows :: rowss))
    /\ log (fst run) = log w.
Proof.
  intros cols rows rowss w Hall run. subst run.
  inversion Hall as [|? ? Hrows Hrest]; subst.
  cbn [map store_each List.concat]. unfold bind.
  destruct (store_results_page cols rows w Hrows) as [H1 [H2 H3]].
  destruct (store_results (page_of cols rows) w) as [w1 o].
  cbn [fst snd] in *. subst o.
  destruct (store_each_existing cols rowss Hrest w1 _ H2) as [H4 [H5 H6]].
  rewrite H4, H5, H6, H3. rewrite <- app_assoc. repeat split.
Qed.

(** X10. A result without [reportData], or whose [reportData] has no
    [columnHeaders], makes [store_results] raise [KeyError] before the file
    is opened: nothing is created or written. *)
Theorem store_results_without_report_data_touches_nothing :
  forall report w,
    (Py.lookup "reportData" report = None ->
     store_results report w = (w, Raise (KeyError "reportData")))
    /\ (forall rd,
          Py.lookup "reportData" report = Some (PDict rd) ->
          Py.lookup "columnHeaders" rd = None ->
          store_results report w = (w, Raise (KeyError "columnHeaders"))).
Proof.
  intros report w. unfold store_results, bind, lift, Py.subscript.
  split.
  - intros ->. reflexivity.
  - intros rd Hrd Hc. rewrite Hrd. cbn -[Py.lookup]. rewrite Hc. reflexivity.
Qed.

(** X11. A result with column headers but without [rows], stored when
    there is no file yet, makes [store_results] raise [KeyError] for [rows]
    after the file was created and the header written. *)
Theorem store_results_without_rows_leaves_the_header :
  forall report rd cols w,
    out_file w = None ->
    Py.lookup "reportData" report = Some (PDict rd) ->
    Py.lookup "columnHeaders" rd = Some (PList cols) ->
    Py.lookup "rows" rd = None ->
    snd (store_results report w) = Raise (KeyError "rows")
    /\ out_file (fst (store_results report w)) = Some [PList cols].
Proof.
  intros report rd cols w Hnone Hrd Hcols Hrows.
  unfold store_results, bind, lift, Py.subscript, open_out, writerow, ret.
  rewrite Hnone, Hrd. cbn -[Py.lookup]. rewrite Hcols. cbn -[Py.lookup].
  rewrite Hrows. split; reflexivity.
Qed.

(** ** The metric definitions *)

Lemma key_eqb_sym a b : key_eqb a b = key_eqb b a.
Proof.
  destruct a as [|x|x|x|x|x], b as [|y|y|y|y|y]; simpl;
    try reflexivity; try apply Z.eqb_sym; apply String.eqb_sym.
Qed.

Lemma key_eqb_same a b c :
  key_eqb a b = true -> key_eqb c b = key_eqb c a.
Proof.
  intro H.
  destruct a as [|x|x|x|x|x], b as [|y|y|y|y|y]; simpl in H;
    try discriminate;
    try (apply Z.eqb_eq in H); try (apply String.eqb_eq in H; subst y);
    destruct c as [|z|z|z|z|z]; simpl; try reflexivity;
    now rewrite H.
Qed.

Lemma key_lookup_set k k' v d :
  key_lookup k (key_set k' v d)
  = if key_eqb k k' then Some v else key_lookup k d.
Proof.
  induction d as [|[k0 v0] d IH]; [reflexivity|].
  cbn [key_set]. destruct (key_eqb k' k0) eqn:H0; cbn [key_lookup].
  - rewrite (key_eqb_same k' k0 k H0).
    destruct (key_eqb k k'); reflexivity.
  - rewrite IH. destruct (key_eqb k k') eqn:Hk; [|reflexivity].
    destruct (key_eqb k k0) eqn:Hk0; [|reflexivity].
    rewrite (key_eqb_same k k0 k' Hk0), key_eqb_sym, Hk in H0. discriminate.
Qed.

Lemma hashable_refl k : hashable k = true -> key_eqb k k = true.
Proof.
  destruct k; simpl; try discriminate; intros _;
    try reflexivity; try apply Z.eqb_refl; apply String.eqb_refl.
Qed.

Lemma specs_into_lookup k items :
  forall acc d,
    specs_into acc items = inr d ->
    key_lookup k d = last_spec k items (key_lookup k acc).
Proof.
  induction items as [|s rest IH]; intros acc d; cbn [specs_into last_spec].
  - intro H. now injection H as <-.
  - destruct (Py.subscript s KEY_METRIC_SPEC_KEY) as [e|k']; [discriminate|].
    destruct (Py.subscript s KEY_METRIC_SPEC_VALUE) as [e|v]; [discriminate|].
    destruct (hashable k'); [|discriminate].
    intro H. rewrite (IH _ _ H), key_lookup_set. reflexivity.
Qed.

Lemma specs_into_hashable before s after k :
  forall acc d,
    specs_into acc (before ++ s :: after) = inr d ->
    Py.subscript s KEY_METRIC_SPEC_KEY = inr k ->
    hashable k = true.
Proof.
  induction before as [|s0 before IH]; intros acc d; cbn [app specs_into].
  - intros H Hk. rewrite Hk in H.
    destruct (Py.subscript s KEY_METRIC_SPEC_VALUE); [discriminate|].
    destruct (hashable k); [reflexivity | discriminate].
  - destruct (Py.subscript s0 KEY_METRIC_SPEC_KEY) as [e|k']; [discriminate|].
    destruct (Py.subscript s0 KEY_METRIC_SPEC_VALUE) as [e|v]; [discriminate|].
    destruct (hashable k'); [|discriminate].
    apply IH.
Qed.

Lemma last_spec_app k l1 l2 found :
  last_spec k (l1 ++ l2) found = last_spec k l2 (last_spec k l1 found).
Proof.
  revert found. induction l1 as [|s l1 IH]; intro found; [reflexivity|].
  cbn [app last_spec]. apply IH.
Qed.

Lemma last_spec_absent k items found :
  (forall s k', In s items ->
                Py.subscript s KEY_METRIC_SPEC_KEY = inr k' ->
                key_eqb k k' = false) ->
  last_spec k items found = found.
Proof.
  revert found. induction items as [|s items IH]; intros found H;
    [reflexivity|].
  cbn [last_spec]. rewrite IH.
  - destruct (Py.subscript s KEY_METRIC_SPEC_KEY) as [e|k'] eqn:Hk;
      [reflexivity|].
    destruct (Py.subscript s KEY_METRIC_SPEC_VALUE); [reflexivity|].
    now rewrite (H s k' (or_introl eq_refl) Hk).
  - intros s' k' Hin. apply H. now right.
Qed.

(** X12. In the dict that [build_specs] returns, a key has the value of the
    last entry with that key ([True] and [1] being one key). *)
Theorem build_specs_last_entry_wins :
  forall spec_metadata before s after k v d,
    Py.iter spec_metadata = inr (before ++ s :: after) ->
    Py.subscript s KEY_METRIC_SPEC_KEY = inr k ->
    Py.subscript s KEY_METRIC_SPEC_VALUE = inr v ->
    (forall s' k', In s' after ->
                   Py.subscript s' KEY_METRIC_SPEC_KEY = inr k' ->
                   key_eqb k k' = false) ->
    build_specs spec_metadata = inr d ->
    key_lookup k d = Some v.
Proof.
  intros sm before s after k v d Hit Hk Hv Hlater Hb.
  unfold build_specs in Hb. rewrite Hit in Hb.
  rewrite (specs_into_lookup k _ _ _ Hb), last_spec_app.
  cbn [last_spec]. rewrite Hk, Hv.
  rewrite (hashable_refl k (specs_into_hashable before s after k [] d Hb Hk)).
  now apply last_spec_absent.
Qed.

(** X13. The dict that [build_specs] returns has no key that no entry
    has. *)
Theorem build_specs_has_no_other_keys :
  forall spec_metadata items k d,
    Py.iter spec_metadata = inr items ->
    (forall s k', In s items ->
                  Py.subscript s KEY_METRIC_SPEC_KEY = inr k' ->
                  key_eqb k k' = false) ->
    build_specs spec_metadata = inr d ->
    key_lookup k d = None.
Proof.
  intros sm items k d Hit Hnone Hb.
  unfold build_specs in Hb. rewrite Hit in Hb.
  rewrite (specs_into_lookup k _ _ _ Hb). now apply last_spec_absent.
Qed.

Lemma specs_into_good good :
  Forall (fun s => exists k v,
            Py.subscript s KEY_METRIC_SPEC_KEY = inr k
            /\ Py.subscript s KEY_METRIC_SPEC_VALUE = inr v
            /\ hashable k = true) good ->
  forall acc rest, exists acc',
    specs_into acc (good ++ rest) = specs_into acc' rest.
Proof.
  induction 1 as [|s good [k [v [Hk [Hv Hh]]]] _ IH]; intros acc rest.
  - exists acc. reflexivity.
  - cbn [app specs_into]. rewrite Hk, Hv, Hh. apply IH.
Qed.

(** X14. After entries that have a hashable key and a value, an entry
    without [key] (but with a value) makes [build_specs] raise [KeyError] for
    [key], one without [value] [KeyError] for [value], one whose key is a
    list or a dict [TypeError], and one that is no dict [TypeError],
    whatever follows. *)
Theorem build_specs_fails_at_the_first_bad_entry :
  forall spec_metadata good s rest,
    Py.iter spec_metadata = inr (good ++ s :: rest) ->
    Forall (fun s => exists k v,
              Py.subscript s KEY_METRIC_SPEC_KEY = inr k
              /\ Py.subscript s KEY_METRIC_SPEC_VALUE = inr v
              /\ hashable k = true) good ->
    (forall sd v, s = PDict sd -> Py.lookup "key" sd = None ->
                  Py.lookup "value" sd = Some v ->
                  build_specs spec_metadata = inl (KeyError "key"))
    /\ (forall sd k, s = PDict sd -> Py.lookup "key" sd = Some k ->
                     Py.lookup "value" sd = None ->
                     build_specs spec_metadata = inl (KeyError "value"))
    /\ (forall sd k v, s = PDict sd -> Py.lookup "key" sd = Some k ->
                       Py.lookup "value" sd = Some v ->
                       hashable k = false ->
                       build_specs spec_metadata = inl TypeError)
    /\ ((forall sd, s <> PDict sd) ->
        build_specs spec_metadata = inl TypeError).
Proof.
  intros sm good s rest Hit Hgood. unfold build_specs. rewrite Hit.
  destruct (specs_into_good good Hgood [] (s :: rest)) as [acc ->].
  cbn [specs_into]. unfold Py.subscript, KEY_METRIC_SPEC_KEY,
    KEY_METRIC_SPEC_VALUE.
  split; [|split; [|split]].
  - intros sd v -> -> _. reflexivity.
  - intros sd k -> -> ->. reflexivity.
  - intros sd k v -> -> -> ->. reflexivity.
  - intro H. destruct s; try reflexivity. now destruct (H d).
Qed.

(** X15. The list that [build_metrics] returns has one definition per entry
    of the configuration, in the same order: the entry's [metric] and the
    [build_specs] of its [specs_metadata]. *)
Theorem build_metrics_builds_each_entry_in_order :
  forall metrics_cfg items defs,
    Py.iter metrics_cfg = inr items ->
    build_metrics metrics_cfg = inr defs ->
    Forall2 built_from items defs.
Proof.
  intros cfg items defs Hit Hb. unfold build_metrics in Hb. rewrite Hit in Hb.
  clear Hit. revert defs Hb.
  induction items as [|m items IH]; intros defs; cbn [metrics_of].
  - intro H. injection H as <-. constructor.
  - destruct (Py.subscript m KEY_METRIC_NAME) as [e|name] eqn:Hn;
      [discriminate|].
    destruct (Py.subscript m KEY_METRIC_SPEC) as [e|sm] eqn:Hs;
      [discriminate|].
    destruct (build_specs sm) as [e|sp] eqn:Hsp; [discriminate|].
    destruct (metrics_of items) as [e|rest]; [discriminate|].
    intro H. injection H as <-. constructor; [|now apply IH].
    split; [exact Hn|]. exists sm. now split.
Qed.

(** ** More statements at concrete services *)

Lemma submit_returns_trailing_segments_witness :
  _submit_stats_report (paged_server [] []) [] [] [] (paging_of 0) example_world
  = (after_post END_BUYER_STATS (submit_body [] [] [] (paging_of 0))
                example_world,
     Ret ("op-1", "loc-1")%string).
Proof.
  apply (submit_returns_trailing_segments
           (paged_server [] []) [] [] [] (paging_of 0) example_world
           "/v1/buyer/stats/operations" "op-1" "/v1/buyer/stats/data" "loc-1");
    try reflexivity.
  vm_compute. discriminate.
Defined.

Lemma submitted_handles_witness :
  let response := post_wire (paged_server [] []) 0 in
  (n_post example_world < 1)%nat
  /\ status_code response <= 299
  /\ has_slash "op-1" = false
  /\ has_slash "loc-1" = false
  /\ exists a1 a2,
       header response "Operation-Location" = inr (a1 ++ "/" ++ "op-1")%string
       /\ header response "Location" = inr (a2 ++ "/" ++ "loc-1")%string.
Proof.
  apply (submitted_handles_have_no_slash
           (paged_server [] []) [] [] [] PNone example_world
           (after_post END_BUYER_STATS (submit_body [] [] [] PNone)
                       example_world)
           "op-1" "loc-1").
  reflexivity.
Defined.

Lemma poller_never_gives_up_witness :
  _wait_until_operation_finished
    no_repr (replying 1500 [] (inr (status_doc "pending"))) 3 "op-1"
    example_world
  = (after_polls (replying 1500 [] (inr (status_doc "pending"))) "op-1" 3
                 example_world, OutOfFuel)
  /\ n_get (after_polls (replying 1500 [] (inr (status_doc "pending")))
                        "op-1" 3 example_world)
     = (n_get example_world + 3)%nat
  /\ seconds DEFAULT_WAIT_INTERVAL * Z.of_nat 3
     <= clock (after_polls (replying 1500 [] (inr (status_doc "pending")))
                           "op-1" 3 example_world)
        - clock example_world.
Proof.
  apply (poller_never_gives_up_on_a_pending_status
           no_repr (replying 1500 [] (inr (status_doc "pending"))) "op-1"
           example_world).
  intro k. exists (status_doc "pending").
  split; [destruct k; reflexivity|]. split; reflexivity.
Defined.

Lemma poller_ends_on_terminal_status_witness :
  let srv := replying 1500 [inr (status_doc "pending");
                             inr (status_doc "pending")]
                      (inr (status_doc "succeeded")) in
  _wait_until_operation_finished no_repr srv 3 "op-1" example_world
  = (after_polls srv "op-1" 3 example_world, Ret (status_doc "succeeded")).
Proof.
  intro srv.
  apply (poller_ends_on_terminal_status
           no_repr srv "op-1" example_world 2 (status_doc "succeeded")).
  - intros i Hi. exists (status_doc "pending").
    split; [|split; reflexivity].
    destruct i as [|[|i]]; [reflexivity | reflexivity | lia].
  - reflexivity.
  - reflexivity.
  - repeat constructor.
Defined.

Lemma poller_lets_transport_errors_through_witness :
  let srv := replying 0 [inr []] (inl (HTTPError "502 Bad Gateway")) in
  _wait_until_operation_finished no_repr srv 2 "op-1" example_world
  = (after_polls srv "op-1" 2 example_world,
     Raise (HTTPError "502 Bad Gateway")).
Proof.
  intro srv.
  apply (poller_lets_transport_errors_through
           no_repr srv "op-1" example_world 1 (HTTPError "502 Bad Gateway")).
  - intros i Hi. exists [].
    destruct i as [|i]; [split; reflexivity | lia].
  - reflexivity.
  - repeat constructor.
Defined.

Lemma drained_pages_witness :
  exists init last,
    [page_of [PStr "date"] [PList [PStr "d1"]];
     page_of [PStr "date"] []]
    = init ++ [last]
    /\ Forall (fun page => has_rows page = true) init
    /\ rows_len last = inr 0.
Proof.
  eapply (drained_pages_end_with_the_empty_page
            no_repr (paged_server [PStr "date"] [[PList [PStr "d1"]]]) 3 1
            (get_report_data_paginated [] [] []) example_world).
  - reflexivity.
  - vm_compute. reflexivity.
Defined.

Lemma page_without_rows_witness :
  let srv := replying 0 [inr (status_doc "succeeded")] (inr []) in
  snd (next no_repr srv 1 (get_report_data_paginated [] [] []) example_world)
  = Raise TypeError.
Proof.
  intro srv.
  assert (H := proj1 (page_without_rows_ends_the_generator
                        no_repr srv 1 (get_report_data_paginated [] [] [])
                        example_world _ _ _ "op-1" "loc-1"
                        (status_doc "succeeded") []
                        eq_refl eq_refl eq_refl eq_refl) eq_refl).
  rewrite H. reflexivity.
Defined.

Lemma stored_pages_witness :
  let cols := [PStr "date"; PStr "clicks"] in
  let run := store_each
               (map (page_of cols)
                    [[PList [PStr "d1"; PInt 3]; PList [PStr "d2"; PInt 4]];
                     [PList [PStr "d3"; PInt 5]]; []])
               example_world in
  snd run = Ret tt
  /\ out_file (fst run)
     = Some (match out_file example_world with
             | None => [PList cols]
             | Some old => old
             end
             ++ List.concat
                  [[PList [PStr "d1"; PInt 3]; PList [PStr "d2"; PInt 4]];
                   [PList [PStr "d3"; PInt 5]]; []])
  /\ log (fst run) = log example_world.
Proof.
  intro cols.
  apply (stored_pages_share_one_header
           cols [PList [PStr "d1"; PInt 3]; PList [PStr "d2"; PInt 4]]
           [[PList [PStr "d3"; PInt 5]]; []] example_world).
  repeat constructor.
Defined.

Lemma store_results_without_report_data_witness :
  store_results [("error", PStr "no data")] example_world
  = (example_world, Raise (KeyError "reportData")).
Proof.
  apply (proj1 (store_results_without_report_data_touches_nothing
                  [("error", PStr "no data")] example_world)).
  reflexivity.
Defined.

Lemma store_results_without_rows_witness :
  let report := [("reportData",
                  PDict [("columnHeaders", PList [PStr "date"])])] in
  snd (store_results report example_world) = Raise (KeyError "rows")
  /\ out_file (fst (store_results report example_world))
     = Some [PList [PStr "date"]].
Proof.
  intro report.
  apply (store_results_without_rows_leaves_the_header
           report [("columnHeaders", PList [PStr "date"])] [PStr "date"]
           example_world); reflexivity.
Defined.

Lemma build_specs_last_entry_wins_witness :
  key_lookup (PStr "adUniqueness")
             [(PStr "adUniqueness", PStr "campaignUnique");
              (PStr "conversionType", PStr "all")]
  = Some (PStr "campaignUnique").
Proof.
  apply (build_specs_last_entry_wins
           (PList [PDict [("key", PStr "adUniqueness"); ("value", PStr "all")];
                   PDict [("key", PStr "adUniqueness");
                          ("value", PStr "campaignUnique")];
                   PDict [("key", PStr "conversionType");
                          ("value", PStr "all")]])
           [PDict [("key", PStr "adUniqueness"); ("value", PStr "all")]]
           (PDict [("key", PStr "adUniqueness");
                   ("value", PStr "campaignUnique")])
           [PDict [("key", PStr "conversionType"); ("value", PStr "all")]]
           (PStr "adUniqueness") (PStr "campaignUnique"));
    try reflexivity.
  intros s' k' [<-|[]] Hk. injection Hk as <-. reflexivity.
Defined.

Lemma build_specs_has_no_other_keys_witness :
  key_lookup (PStr "rate") [(PInt 1, PStr "b")] = None.
Proof.
  apply (build_specs_has_no_other_keys
           (PList [PDict [("key", PInt 1); ("value", PStr "a")];
                   PDict [("key", PBool true); ("value", PStr "b")]])
           [PDict [("key", PInt 1); ("value", PStr "a")];
            PDict [("key", PBool true); ("value", PStr "b")]]
           (PStr "rate")); try reflexivity.
  intros s' k' [<-|[<-|[]]] Hk; injection Hk as <-; reflexivity.
Defined.

Lemma build_specs_fails_witness :
  build_specs (PList [PDict [("key", PStr "a"); ("value", PInt 1)];
                      PDict [("value", PInt 2)];
                      PDict [("key", PStr "c"); ("value", PInt 3)]])
  = inl (KeyError "key").
Proof.
  destruct (build_specs_fails_at_the_first_bad_entry
              (PList [PDict [("key", PStr "a"); ("value", PInt 1)];
                      PDict [("value", PInt 2)];
                      PDict [("key", PStr "c"); ("value", PInt 3)]])
              [PDict [("key", PStr "a"); ("value", PInt 1)]]
              (PDict [("value", PInt 2)])
              [PDict [("key", PStr "c"); ("value", PInt 3)]]) as [H _].
  - reflexivity.
  - constructor; [|constructor].
    exists (PStr "a"), (PInt 1). repeat split.
  - apply (H [("value", PInt 2)] (PInt 2)); reflexivity.
Defined.

Lemma build_metrics_witness :
  Forall2 built_from
    [PDict [("metric", PStr "impressions");
            ("specs_metadata",
             PList [PDict [("key", PStr "adUniqueness");
                           ("value", PStr "campaignUnique")]])];
     PDict [("metric", PStr "clicks"); ("specs_metadata", PList [])]]
    [mkMetric (PStr "impressions")
              [(PStr "adUniqueness", PStr "campaignUnique")];
     mkMetric (PStr "clicks") []].
Proof.
  apply (build_metrics_builds_each_entry_in_order
           (PList [PDict [("metric", PStr "impressions");
                          ("specs_metadata",
                           PList [PDict [("key", PStr "adUniqueness");
                                         ("value", PStr "campaignUnique")]])];
                   PDict [("metric", PStr "clicks");
                          ("specs_metadata", PList [])]]));
    reflexivity.
Defined.
